(** * go-bouncer: the redirect handler of [handlers.go]

    A shallow embedding of the download bouncer's request handler:
    the version comparator, the legacy (Windows XP / Vista) client
    detector, the sha1 product pinning, the mirror selection, the
    stub-attribution gate and [ServeHTTP] itself, followed by the
    properties the specification states about them.

    Go strings are byte strings and are embedded as [string].  Product
    names, versions and user agents are treated one byte per rune; on
    that range [unicode.IsNumber] is exactly the decimal digits.  Go's
    [int] is the 64-bit one and is embedded as [Z] with the range check
    of [strconv.Atoi] written out. *)

From Stdlib Require Import ZArith String Ascii List Bool Lia.
From stdpp Require Import gmap strings sorting.
Import ListNotations.
Open Scope string_scope.

(** ** The fragment of Go's [strings], [unicode] and [strconv] in use *)

Section GoStrings.

(** [strings.HasPrefix]. *)
Fixpoint HasPrefix (s prefix : string) : bool :=
  match prefix with
  | EmptyString => true
  | String p prefix' =>
      match s with
      | EmptyString => false
      | String c s' => Ascii.eqb c p && HasPrefix s' prefix'
      end
  end.

(** [strings.HasSuffix]: some tail of [s] is [suffix]. *)
Fixpoint HasSuffix (s suffix : string) : bool :=
  String.eqb s suffix ||
  match s with
  | EmptyString => false
  | String _ s' => HasSuffix s' suffix
  end.

(** [strings.Contains]: [substr] starts at some position of [s]. *)
Fixpoint Contains (s substr : string) : bool :=
  HasPrefix s substr ||
  match s with
  | EmptyString => false
  | String _ s' => Contains s' substr
  end.

(** [strings.Split] for a one-byte separator (the program splits on
    ["."] only): the empty string yields one empty field. *)
Fixpoint Split (s : string) (sep : ascii) : list string :=
  match s with
  | EmptyString => [EmptyString]
  | String c s' =>
      if Ascii.eqb c sep then EmptyString :: Split s' sep
      else match Split s' sep with
           | field :: fields => String c field :: fields
           | [] => [String c EmptyString]
           end
  end.

(** [strings.SplitN] for a one-byte separator and a count [n >= 0]:
    at most [n] fields, the last one being the unsplit remainder. *)
Fixpoint SplitN (s : string) (sep : ascii) (n : nat) : list string :=
  match n with
  | O => []
  | S O => [s]
  | S n' =>
      match s with
      | EmptyString => [EmptyString]
      | String c s' =>
          if Ascii.eqb c sep then EmptyString :: SplitN s' sep n'
          else match SplitN s' sep n with
               | field :: fields => String c field :: fields
               | [] => [String c EmptyString]
               end
      end
  end.

(** [strings.TrimRightFunc]: drop the longest tail of runes on which
    [f] holds. *)
Fixpoint TrimRightFunc (s : string) (f : ascii -> bool) : string :=
  match s with
  | EmptyString => EmptyString
  | String c s' =>
      match TrimRightFunc s' f with
      | EmptyString => if f c then EmptyString else String c EmptyString
      | t => String c t
      end
  end.

(** [unicode.IsNumber] on one-byte runes: the digits 0 to 9. *)
Definition IsNumber (r : ascii) : bool :=
  (48 <=? nat_of_ascii r)%nat && (nat_of_ascii r <=? 57)%nat.

Definition maxInt : Z := 9223372036854775807.
Definition minInt : Z := -9223372036854775808.

(** The digit loop of [strconv.Atoi]: base 10, no underscores. *)
Fixpoint parseDigits (s : string) (acc : Z) : option Z :=
  match s with
  | EmptyString => Some acc
  | String c s' =>
      if IsNumber c
      then parseDigits s' (acc * 10 + (Z.of_nat (nat_of_ascii c) - 48))%Z
      else None
  end.

(** [strconv.Atoi]: an optional sign, then at least one digit; a
    syntax error or a value outside [int] is an error ([None]). *)
Definition Atoi (s : string) : option Z :=
  let signed :=
    match s with
    | String c _ => Ascii.eqb c "-" || Ascii.eqb c "+"
    | EmptyString => false
    end in
  let neg := HasPrefix s "-" in
  let digits :=
    match s with
    | String _ rest => if signed then rest else s
    | EmptyString => s
    end in
  match digits with
  | EmptyString => None
  | _ =>
      match parseDigits digits 0 with
      | None => None
      | Some n =>
          let v := if neg then (- n)%Z else n in
          if ((minInt <=? v) && (v <=? maxInt))%Z then Some v else None
      end
  end.

End GoStrings.

(** ** Version comparison (handlers.go, [compareVersions]) *)

Definition isNotNumber (r : ascii) : bool := negb (IsNumber r).

(** The integer a version segment stands for: [strconv.Atoi] of the
    segment without its trailing non-number runes, and 0 when that
    fails (the two [if err != nil] blocks of [compareVersions]). *)
Definition segmentInt (ver : string) : Z :=
  match Atoi (TrimRightFunc ver isNotNumber) with
  | Some n => n
  | None => 0%Z
  end.

(** The [for i, verA := range aParts] loop; [aParts] is what is left of
    the range from index [i] on. *)
Fixpoint compareParts (i : nat) (aParts bParts : list string) : Z :=
  match aParts with
  | [] => 0%Z
  | verA :: aRest =>
      match bParts !! i with
      | None => 1%Z
      | Some verB =>
          let aInt := segmentInt verA in
          let bInt := segmentInt verB in
          if (aInt >? bInt)%Z then 1%Z
          else if (aInt <? bInt)%Z then (-1)%Z
          else compareParts (S i) aRest bParts
      end
  end.

Definition compareVersions (a b : string) : Z :=
  if String.eqb a b then 0%Z
  else compareParts 0 (Split a ".") (Split b ".").

(** ** Legacy client detection (handlers.go, [windowsXPRegex]) *)

(** The star-free fragment of Go's [regexp] syntax that
    [windowsXPRegex] is written in. *)
Inductive regexp : Type :=
| Eps : regexp
| Lit : ascii -> regexp
| AnyCharNotNL : regexp
| Cat : regexp -> regexp -> regexp
| Alt : regexp -> regexp -> regexp.

(** A literal string as a regular expression. *)
Fixpoint lit (s : string) : regexp :=
  match s with
  | EmptyString => Eps
  | String c s' => Cat (Lit c) (lit s')
  end.

(** All the ways [r] matches a prefix of [s]: what is left of [s] after
    each match. *)
Fixpoint matchPrefix (r : regexp) (s : string) : list string :=
  match r with
  | Eps => [s]
  | Lit c =>
      match s with
      | String c' s' => if Ascii.eqb c' c then [s'] else []
      | EmptyString => []
      end
  | AnyCharNotNL =>
      match s with
      | String c' s' => if Ascii.eqb c' "010" then [] else [s']
      | EmptyString => []
      end
  | Cat r1 r2 => flat_map (matchPrefix r2) (matchPrefix r1 s)
  | Alt r1 r2 => matchPrefix r1 s ++ matchPrefix r2 s
  end.

(** [Regexp.MatchString]: an unanchored search. *)
Fixpoint MatchString (r : regexp) (s : string) : bool :=
  match matchPrefix r s with
  | _ :: _ => true
  | [] =>
      match s with
      | EmptyString => false
      | String _ s' => MatchString r s'
      end
  end.

(** [Windows (?:NT 5.1|XP|NT 5.2|NT 6.0)]; detects Windows XP and
    Vista clients. *)
Definition windowsXPRegex : regexp :=
  Cat (lit "Windows ")
      (Alt (Cat (lit "NT 5") (Cat AnyCharNotNL (lit "1")))
      (Alt (lit "XP")
      (Alt (Cat (lit "NT 5") (Cat AnyCharNotNL (lit "2")))
           (Cat (lit "NT 6") (Cat AnyCharNotNL (lit "0")))))).

Definition isWindowsXPUserAgent (userAgent : string) : bool :=
  MatchString windowsXPRegex userAgent.

(** ** Pinning to the last sha1-signed product (handlers.go) *)

Definition DefaultLang : string := "en-US".
Definition DefaultOS : string := "win".
Definition firefoxSHA1ESRAliasSuffix : string := "sha1".

Record xpRelease : Type := { Version : string }.

Definition tBirdWinXPLastRelease : xpRelease := {| Version := "38.5.0" |}.
Definition tBirdWinXPLastBeta : xpRelease := {| Version := "43.0b1" |}.

Definition tBirdSha1Product (productSuffix : string) : string :=
  if (productSuffix =? "beta") || (productSuffix =? "beta-latest")
  then Version tBirdWinXPLastBeta
  else if productSuffix =? "ssl"
  then Version tBirdWinXPLastRelease ++ "-ssl"
  else if productSuffix =? "latest"
  then Version tBirdWinXPLastRelease
  else
    let productSuffixParts := SplitN productSuffix "-" 2 in
    let ver := nth 0 productSuffixParts "" in
    let possibleVersion :=
      if Contains ver ".0b" then tBirdWinXPLastBeta
      else tBirdWinXPLastRelease in
    if (compareVersions ver (Version possibleVersion) =? -1)%Z
    then productSuffix
    else if (length productSuffixParts =? 1)%nat
    then Version possibleVersion
    else if nth 1 productSuffixParts "" =? "ssl"
    then Version possibleVersion ++ "-ssl"
    else productSuffix.

Definition firefoxSha1Product (productSuffix : string) : string :=
  (* Do not touch products ending with "sha1" *)
  if HasSuffix productSuffix "-sha1" then productSuffix
  (* Do not touch completes and partials *)
  else if HasSuffix productSuffix "-complete"
          || Contains productSuffix "-partial-"
  then productSuffix
  else firefoxSHA1ESRAliasSuffix.

Definition sha1Product (product : string) : string :=
  let productParts := SplitN product "-" 2 in
  if (length productParts =? 1)%nat then product
  else if nth 0 productParts "" =? "firefox"
  then "firefox-" ++ firefoxSha1Product (nth 1 productParts "")
  else if nth 0 productParts "" =? "thunderbird"
  then "thunderbird-" ++ tBirdSha1Product (nth 1 productParts "")
  else product.

(** ** The fragment of Go's [net/url] used for the stub URL *)

(** [url.Values] is a [map[string][]string]. *)
Abbreviation Values := (gmap string (list string)).

(** [Values.Set]: the key now holds exactly this value. *)
Definition Values_Set (v : Values) (key value : string) : Values :=
  <[key := [value]]> v.

Definition upperhex : string := "0123456789ABCDEF".

Definition hexDigit (n : nat) : string :=
  match String.get n upperhex with
  | Some c => String c EmptyString
  | None => EmptyString
  end.

Definition inRange (lo hi : nat) (c : ascii) : bool :=
  (lo <=? nat_of_ascii c)%nat && (nat_of_ascii c <=? hi)%nat.

(** [shouldEscape(c, encodeQueryComponent)]: letters, digits and the
    marks [-_.~] are kept, every other byte is escaped. *)
Definition shouldEscape (c : ascii) : bool :=
  negb (inRange 97 122 c || inRange 65 90 c || inRange 48 57 c
        || Ascii.eqb c "-" || Ascii.eqb c "_"
        || Ascii.eqb c "." || Ascii.eqb c "~").

(** [url.QueryEscape]. *)
Fixpoint QueryEscape (s : string) : string :=
  match s with
  | EmptyString => EmptyString
  | String c s' =>
      (if shouldEscape c
       then if Ascii.eqb c " " then "+"
            else "%" ++ hexDigit (nat_of_ascii c / 16)
                     ++ hexDigit (nat_of_ascii c mod 16)
       else String c EmptyString) ++ QueryEscape s'
  end.

Definition writePair (keyEscaped : string) (buf value : string) : string :=
  (if (String.length buf =? 0)%nat then buf else buf ++ "&")
    ++ keyEscaped ++ "=" ++ QueryEscape value.

(** [Values.Encode]: the keys in sorted order, each value as
    [key=value], joined by [&]. *)
Definition Encode (v : Values) : string :=
  let keys :=
    merge_sort (fun a b => Is_true (String.leb a b))
               (map fst (map_to_list v)) in
  fold_left
    (fun buf k => fold_left (writePair (QueryEscape k)) (v !!! k) buf)
    keys EmptyString.

(** ** The bouncer handler (handlers.go, [BouncerHandler]) *)

Record BouncerParams : Type := {
  OS : string;
  Product : string;
  Lang : string;
  PrintOnly : bool;
  AttributionCode : string;
  AttributionSig : string
}.

(** What [ServeHTTP] reads of an [*http.Request]: the query values, the
    user agent and the header lookup [req.Header.Get]. *)
Record Request : Type := {
  URLQuery : Values;
  UserAgent : string;
  HeaderGet : string -> string
}.

(** The error of [errors.New]: its message. *)
Definition error : Type := string.

(** Where [ServeHTTP] returns, with what it wrote to the response. *)
Inductive Outcome : Type :=
| RedirectHome : Outcome
    (* http.Redirect(w, req, "http://www.mozilla.org/", 302) *)
| RedirectStub : string -> Outcome
    (* http.Redirect(w, req, stubURL, 302) *)
| InternalServerError : error -> Outcome
    (* http.Error(w, ..., 500); log.Println(err) *)
| NotFound : Outcome
    (* http.NotFound(w, req) *)
| PrintURL : option Z -> string -> Outcome
    (* Cache-Control max-age when set; text/plain body *)
| RedirectMirror : option Z -> string -> Outcome.
    (* Cache-Control max-age when set; http.Redirect(w, req, url, 302) *)

Definition statusCode (o : Outcome) : Z :=
  match o with
  | RedirectHome | RedirectStub _ | RedirectMirror _ _ => 302
  | InternalServerError _ => 500
  | NotFound => 404
  | PrintURL _ _ => 200
  end.

(** The URL handed to [http.Redirect], when the response is one. *)
Definition redirectURL (o : Outcome) : option string :=
  match o with
  | RedirectHome => Some "http://www.mozilla.org/"
  | RedirectStub url | RedirectMirror _ url => Some url
  | _ => None
  end.

(** What the request wrote to the server log. *)
Definition logged (o : Outcome) : list string :=
  match o with
  | InternalServerError err => [err]
  | _ => []
  end.

Definition Second : Z := 1000000000.

Section Handler.

(** What handlers.go uses and does not declare: the type of location
    templates with its rendering [locationPath.ToString(lang)], the
    alias normalisation [NewAliasName], and the reading of the query
    values into [BouncerParams]. *)
Context {LocationPath : Type}.
Variable ToString : LocationPath -> string -> string.
Variable NewAliasName : string -> string.
Variable BouncerParamsFromValues : Values -> BouncerParams.

(** Modelled from the spec: [ProductLocation] is declared outside
    handlers.go; it is [{ SSLOnly: bool, Locations: mapping OSName ->
    LocationTemplate }], an absent OS name meaning that the product is
    not available there.  Its [Locations] is named [OsLocations] here,
    apart from the handler's field. *)
Record ProductLocation : Type := {
  SSLOnly : bool;
  OsLocations : gmap string LocationPath
}.

(** Modelled from the spec: [BouncerMap] is declared outside
    handlers.go; it is [{ Aliases: mapping AliasName -> ProductName,
    Products: mapping ProductName -> ProductLocation }], the second
    field being [ProductLocationMap] in handlers.go. *)
Record BouncerMap : Type := {
  Aliases : gmap string string;
  ProductLocationMap : gmap string ProductLocation
}.

Record BouncerHandler : Type := {
  Locations : BouncerMap;
  CacheTime : Z;
  PinHttpsHeaderName : string;
  PinnedBaseURLHttp : string;
  PinnedBaseURLHttps : string;
  StubRootURL : string
}.

Definition mirrorBaseURL (b : BouncerHandler) (sslOnly : bool)
  : string * option error :=
  if negb (PinnedBaseURLHttps b =? "") && sslOnly
  then ("https://" ++ PinnedBaseURLHttps b, None)
  else if negb (PinnedBaseURLHttp b =? "") && negb sslOnly
  then ("http://" ++ PinnedBaseURLHttp b, None)
  else ("", Some "No mirror found.").

(** [URL] returns the final redirect URL given a lang, os and
    product; the empty string means no mirror or location was found. *)
Definition URL (b : BouncerHandler) (pinHttps : bool)
    (lang os product : string) : string * option error :=
  let product :=
    match Aliases (Locations b) !! NewAliasName product with
    | Some aliasedProduct => aliasedProduct
    | None => product
    end in
  match ProductLocationMap (Locations b) !! product with
  | None => ("", None)
  | Some productData =>
      let sslOnly := SSLOnly productData in
      match OsLocations productData !! os with
      | None => ("", None)
      | Some locationPath =>
          let '(mirrorBase, err) := mirrorBaseURL b (pinHttps || sslOnly) in
          if bool_decide (err <> None) || (mirrorBase =? "")
          then ("", err)
          else (mirrorBase ++ ToString locationPath lang, None)
      end
  end.

Definition stubAttributionURL (b : BouncerHandler)
    (reqParams : BouncerParams) : string :=
  let query : Values := ∅ in
  let query := Values_Set query "lang" (Lang reqParams) in
  let query := Values_Set query "os" (OS reqParams) in
  let query := Values_Set query "product" (Product reqParams) in
  let query :=
    Values_Set query "attribution_code" (AttributionCode reqParams) in
  let query :=
    Values_Set query "attribution_sig" (AttributionSig reqParams) in
  StubRootURL b ++ "?" ++ Encode query.

Definition shouldPinHttps (b : BouncerHandler) (req : Request) : bool :=
  if PinHttpsHeaderName b =? "" then false
  else HeaderGet req (PinHttpsHeaderName b) =? "https".

Definition withOS (p : BouncerParams) (os : string) : BouncerParams :=
  {| OS := os; Product := Product p; Lang := Lang p;
     PrintOnly := PrintOnly p; AttributionCode := AttributionCode p;
     AttributionSig := AttributionSig p |}.

Definition withLang (p : BouncerParams) (lang : string) : BouncerParams :=
  {| OS := OS p; Product := Product p; Lang := lang;
     PrintOnly := PrintOnly p; AttributionCode := AttributionCode p;
     AttributionSig := AttributionSig p |}.

Definition withProduct (p : BouncerParams) (product : string)
  : BouncerParams :=
  {| OS := OS p; Product := product; Lang := Lang p;
     PrintOnly := PrintOnly p; AttributionCode := AttributionCode p;
     AttributionSig := AttributionSig p |}.

(** The condition of the stub-attribution [if] of [ServeHTTP]. *)
Definition stubAttributionGate (b : BouncerHandler)
    (reqParams : BouncerParams) (isWinXpClient : bool) : bool :=
  negb (StubRootURL b =? "")
  && negb (AttributionCode reqParams =? "")
  && negb (AttributionSig reqParams =? "")
  && Contains (Product reqParams) "-stub"
  && negb isWinXpClient.

Definition ServeHTTP (b : BouncerHandler) (req : Request) : Outcome :=
  let reqParams := BouncerParamsFromValues (URLQuery req) in
  if Product reqParams =? "" then RedirectHome
  else
    let reqParams :=
      if OS reqParams =? "" then withOS reqParams DefaultOS
      else reqParams in
    let reqParams :=
      if Lang reqParams =? "" then withLang reqParams DefaultLang
      else reqParams in
    let isWinXpClient := isWindowsXPUserAgent (UserAgent req) in
    (* If the client is not WinXP and attribution_code is set,
       redirect to the stub service *)
    if stubAttributionGate b reqParams isWinXpClient
    then RedirectStub (stubAttributionURL b reqParams)
    else
      (* If the user is coming from windows xp or vista, send a sha1
         signed product *)
      let reqParams :=
        if (OS reqParams =? "win") && isWinXpClient
        then withProduct reqParams (sha1Product (Product reqParams))
        else reqParams in
      let '(url, err) :=
        URL b (shouldPinHttps b req)
            (Lang reqParams) (OS reqParams) (Product reqParams) in
      match err with
      | Some e => InternalServerError e
      | None =>
          if url =? "" then NotFound
          else
            let maxAge :=
              if (CacheTime b >? 0)%Z
              then Some (CacheTime b ÷ Second)%Z else None in
            if PrintOnly reqParams then PrintURL maxAge url
            else RedirectMirror maxAge url
      end.

End Handler.

Arguments ProductLocation : clear implicits.
Arguments BouncerMap : clear implicits.
Arguments BouncerHandler : clear implicits.

(** ** The health handler (handlers.go, [HealthHandler]) *)

Module Health.

(** [HealthResult] represents service health. *)
Record HealthResult : Type := {
  DB : bool;
  Healthy : bool;
  Version : string
}.

(** [HealthHandler] returns 200 if the app looks okay. *)
Record HealthHandler : Type := { CacheTime : Z }.

(** What [ServeHTTP] wrote: the status, the max-age of the
    Cache-Control header when it set one, the content type and the
    body. *)
Record Response : Type := {
  Status : Z;
  CacheControl : option Z;
  ContentType : string;
  Body : string
}.

Section Marshal.

(** [bouncer.Version] and the encoding of a string value by
    [encoding/json] are declared outside handlers.go. *)
Variable bouncerVersion : string.
Variable jsonString : string -> string.

(** The double quote. *)
Definition quote : string := String (ascii_of_nat 34) EmptyString.

Definition jsonBool (b : bool) : string := if b then "true" else "false".

(** [json.Marshal] of a [HealthResult]: the three fields under their
    tags, in the order of the declaration.  Marshalling two booleans and
    a string cannot fail, so the error branch of [JSON] is not taken. *)
Definition JSON (h : HealthResult) : string :=
  "{" ++ quote ++ "db" ++ quote ++ ":" ++ jsonBool (DB h)
  ++ "," ++ quote ++ "healthy" ++ quote ++ ":" ++ jsonBool (Healthy h)
  ++ "," ++ quote ++ "version" ++ quote ++ ":" ++ jsonString (Version h)
  ++ "}".

(** [DB] is left at its zero value. *)
Definition check (h : HealthHandler) : HealthResult :=
  {| DB := false; Healthy := true; Version := bouncerVersion |}.

Definition ServeHTTP (h : HealthHandler) (req : Request) : Response :=
  let cacheControl :=
    if (CacheTime h >? 0)%Z then Some (CacheTime h ÷ Second)%Z else None in
  let result := check h in
  {| Status := if negb (Healthy result) then 500%Z else 200%Z;
     CacheControl := cacheControl;
     ContentType := "application/json";
     Body := JSON result |}.

End Marshal.

End Health.

(** ** Vocabulary of the properties, and example data *)

(** Every rune of [s] satisfies [f]. *)
Fixpoint allRunes (f : ascii -> bool) (s : string) : bool :=
  match s with
  | EmptyString => true
  | String c s' => f c && allRunes f s'
  end.


(** The loop of [compareVersions] on the segments of [a] and the
    segments of [b] that face them. *)
Fixpoint comparePairs (aParts bParts : list string) : Z :=
  match aParts with
  | [] => 0%Z
  | verA :: aRest =>
      match bParts with
      | [] => 1%Z
      | verB :: bRest =>
          if (segmentInt verA >? segmentInt verB)%Z then 1%Z
          else if (segmentInt verA <? segmentInt verB)%Z then (-1)%Z
          else comparePairs aRest bRest
      end
  end.

(** The suffix of a complete update, or of a partial update from a base
    version. *)
Definition isUpdatePackage (productSuffix : string) : bool :=
  HasSuffix productSuffix "-complete" || Contains productSuffix "-partial-".

(** The strings a regular expression matches in full. *)
Fixpoint matches (r : regexp) (m : string) : Prop :=
  match r with
  | Eps => m = ""
  | Lit c => m = String c ""
  | AnyCharNotNL => exists c, c <> "010"%char /\ m = String c ""
  | Cat r1 r2 => exists m1 m2, m = m1 ++ m2 /\ matches r1 m1 /\ matches r2 m2
  | Alt r1 r2 => matches r1 m \/ matches r2 m
  end.

(** What [windowsXPRegex] matches: ["Windows "] followed by ["XP"], or
    by ["NT 5"] or ["NT 6"], any one rune but a newline (the pattern's
    dot), and the minor version digit. *)
Definition legacyWindows (m : string) : Prop :=
  m = "Windows XP"
  \/ exists c, c <> "010"%char
       /\ (m = "Windows NT 5" ++ String c "1"
           \/ m = "Windows NT 5" ++ String c "2"
           \/ m = "Windows NT 6" ++ String c "0").

(** A handler with an HTTP mirror and no HTTPS mirror. *)
Definition httpOnlyHandler : BouncerHandler string :=
  {| Locations := {| Aliases := ∅; ProductLocationMap := ∅ |};
     CacheTime := 0;
     PinHttpsHeaderName := "";
     PinnedBaseURLHttp := "download.cdn.mozilla.net";
     PinnedBaseURLHttps := "";
     StubRootURL := "" |}.

(** The request parameters after the two defaulting steps. *)
Definition withDefaults (p : BouncerParams) : BouncerParams :=
  let p := if OS p =? "" then withOS p DefaultOS else p in
  if Lang p =? "" then withLang p DefaultLang else p.

(** [b] serving another map. *)
Definition withLocations {LocationPath : Type}
    (b : BouncerHandler LocationPath) (m : BouncerMap LocationPath)
  : BouncerHandler LocationPath :=
  {| Locations := m;
     CacheTime := CacheTime b;
     PinHttpsHeaderName := PinHttpsHeaderName b;
     PinnedBaseURLHttp := PinnedBaseURLHttp b;
     PinnedBaseURLHttps := PinnedBaseURLHttps b;
     StubRootURL := StubRootURL b |}.

(** [b] with no stub service configured. *)
Definition withoutStubRoot {LocationPath : Type}
    (b : BouncerHandler LocationPath) : BouncerHandler LocationPath :=
  {| Locations := Locations b;
     CacheTime := CacheTime b;
     PinHttpsHeaderName := PinHttpsHeaderName b;
     PinnedBaseURLHttp := PinnedBaseURLHttp b;
     PinnedBaseURLHttps := PinnedBaseURLHttps b;
     StubRootURL := "" |}.

(** [url.Values.Get]: the first value of the key, or the empty string. *)
Definition Values_Get (v : Values) (key : string) : string :=
  match v !!! key with
  | value :: _ => value
  | [] => ""
  end.

(** A reading of the query in the shape of the interface table: each
    field is the value of its parameter, [print] asks for the URL as
    text. *)
Definition exampleParamsFromValues (v : Values) : BouncerParams :=
  {| OS := Values_Get v "os";
     Product := Values_Get v "product";
     Lang := Values_Get v "lang";
     PrintOnly := negb (Values_Get v "print" =? "");
     AttributionCode := Values_Get v "attribution_code";
     AttributionSig := Values_Get v "attribution_sig" |}.

(** A handler with a stub service and an empty map. *)
Definition stubHandler : BouncerHandler string :=
  {| Locations := {| Aliases := ∅; ProductLocationMap := ∅ |};
     CacheTime := 0;
     PinHttpsHeaderName := "";
     PinnedBaseURLHttp := "download.cdn.mozilla.net";
     PinnedBaseURLHttps := "";
     StubRootURL := "https://stubattribution.example/" |}.

(** [GET /?os=mac&lang=en-US]: no product. *)
Definition bareRequest : Request :=
  {| URLQuery := {[ "os" := ["mac"]; "lang" := ["en-US"] ]};
     UserAgent := "Mozilla/5.0 (Windows NT 5.1; rv:31.0) Firefox/31.0";
     HeaderGet := fun _ => "" |}.

(** A stub installer request with attribution, from a current client. *)
Definition stubRequest : Request :=
  {| URLQuery := {[ "product" := ["firefox-stub"];
                    "attribution_code" := ["source=google&medium=cpc"];
                    "attribution_sig" := ["abc123"] ]};
     UserAgent := "Mozilla/5.0 (Windows NT 10.0; rv:60.0) Firefox/60.0";
     HeaderGet := fun _ => "" |}.

(** No rune of [s] is the separator ["-"]. *)
Definition dashFree (s : string) : bool :=
  allRunes (fun c => negb (Ascii.eqb c "-")) s.

(** The ceiling [tBirdSha1Product] holds a version against: the last
    beta when the version contains [".0b"], the last release
    otherwise. *)
Definition tBirdCeiling (ver : string) : string :=
  Version (if Contains ver ".0b" then tBirdWinXPLastBeta
           else tBirdWinXPLastRelease).

(** [ver] unless it does not compare below its ceiling, then the
    ceiling. *)
Definition tBirdCapped (ver : string) : string :=
  if (compareVersions ver (tBirdCeiling ver) =? -1)%Z then ver
  else tBirdCeiling ver.

(** [p] asking for the URL as text, or not. *)
Definition withPrintOnly (p : BouncerParams) (printOnly : bool)
  : BouncerParams :=
  {| OS := OS p; Product := Product p; Lang := Lang p;
     PrintOnly := printOnly; AttributionCode := AttributionCode p;
     AttributionSig := AttributionSig p |}.

(** The outcome with a redirect to a mirror turned into the printed
    URL. *)
Definition printed (o : Outcome) : Outcome :=
  match o with
  | RedirectMirror maxAge url => PrintURL maxAge url
  | _ => o
  end.

(** The max-age of the Cache-Control header an outcome carries. *)
Definition cacheControl (o : Outcome) : option Z :=
  match o with
  | PrintURL maxAge _ | RedirectMirror maxAge _ => maxAge
  | _ => None
  end.

(** The mirror URL an outcome hands out. *)
Definition mirrorURL (o : Outcome) : option string :=
  match o with
  | PrintURL _ url | RedirectMirror _ url => Some url
  | _ => None
  end.

(** The product the map is asked for: the requested one, or the pinned
    one for a Windows XP or Vista client on ["win"]. *)
Definition lookedUpProduct (p : BouncerParams) (isWinXpClient : bool)
  : string :=
  if (OS p =? "win") && isWinXpClient then sha1Product (Product p)
  else Product p.

(** How [ServeHTTP] answers with what [URL] returned. *)
Definition deliver (printOnly : bool) (cacheTime : Z)
    (result : string * option error) : Outcome :=
  match result with
  | (_, Some e) => InternalServerError e
  | (url, None) =>
      if url =? "" then NotFound
      else
        let maxAge :=
          if (cacheTime >? 0)%Z then Some (cacheTime ÷ Second)%Z
          else None in
        if printOnly then PrintURL maxAge url else RedirectMirror maxAge url
  end.

(** [b] with no alias. *)
Definition withoutAliases {LocationPath : Type}
    (b : BouncerHandler LocationPath) : BouncerHandler LocationPath :=
  withLocations b
    {| Aliases := ∅;
       ProductLocationMap := ProductLocationMap (Locations b) |}.

(** The number of runes [c] in [s]. *)
Fixpoint countRune (c : ascii) (s : string) : nat :=
  match s with
  | EmptyString => 0
  | String c' s' => (if Ascii.eqb c' c then 1 else 0) + countRune c s'
  end.

(** The bytes [url.QueryEscape] lets through or writes. *)
Definition querySafe (c : ascii) : bool :=
  negb (shouldEscape c) || Ascii.eqb c "%" || Ascii.eqb c "+".

(** A map with one alias, a plain product and an SSL-only one. *)
Definition exampleMap : BouncerMap string :=
  {| Aliases := {[ "firefox-latest" := "firefox-39.0" ]};
     ProductLocationMap :=
       {[ "firefox-39.0" :=
            {| SSLOnly := false;
               OsLocations :=
                 {[ "win" := "/pub/firefox/releases/39.0/win32/";
                    "osx" := "/pub/firefox/releases/39.0/mac/" ]} |};
          "firefox-39.0-ssl" :=
            {| SSLOnly := true;
               OsLocations :=
                 {[ "win" := "/pub/firefox/releases/39.0/win32/" ]} |};
          "firefox-sha1" :=
            {| SSLOnly := false;
               OsLocations :=
                 {[ "win" := "/pub/firefox/releases/52.9.0esr/win32/" ]} |}
       ]} |}.

(** A handler with both mirrors, a cache time of a minute and a half
    and the pin header [X-Forwarded-Proto]. *)
Definition mirrorHandler : BouncerHandler string :=
  {| Locations := exampleMap;
     CacheTime := 90500000000;
     PinHttpsHeaderName := "X-Forwarded-Proto";
     PinnedBaseURLHttp := "download.cdn.mozilla.net";
     PinnedBaseURLHttps := "download-installer.cdn.mozilla.net";
     StubRootURL := "" |}.

(** [GET /?product=firefox-latest&os=osx&lang=en-US], with or without
    [print=yes], from a current client. *)
Definition latestRequest (print : bool) : Request :=
  {| URLQuery :=
       if print
       then {[ "product" := ["firefox-latest"]; "os" := ["osx"];
               "lang" := ["en-US"]; "print" := ["yes"] ]}
       else {[ "product" := ["firefox-latest"]; "os" := ["osx"];
               "lang" := ["en-US"] ]};
     UserAgent := "Mozilla/5.0 (Macintosh; rv:60.0) Firefox/60.0";
     HeaderGet := fun _ => "" |}.

(** A request for [product] on ["win"] with the user agent
    [userAgent], sent with [X-Forwarded-Proto: https] when [pin]. *)
Definition winRequest (product userAgent : string) (pin : bool) : Request :=
  {| URLQuery := {[ "product" := [product]; "os" := ["win"] ]};
     UserAgent := userAgent;
     HeaderGet := fun name =>
       if pin && (name =? "X-Forwarded-Proto") then "https" else "" |}.

Definition xpUserAgent : string :=
  "Mozilla/5.0 (Windows NT 5.1; rv:31.0) Gecko/20100101 Firefox/31.0".

(** The product name [URL] looks up: the alias's target when
    [product] is an alias, [product] itself otherwise. *)
Definition aliasTarget {LocationPath : Type} (NewAliasName : string -> string)
    (m : BouncerMap LocationPath) (product : string) : string :=
  match Aliases m !! NewAliasName product with
  | Some aliasedProduct => aliasedProduct
  | None => product
  end.

(** * Properties *)

(** ** Strings *)

#[local] Arguments String.append !_ _ / : simpl nomatch.




(** ** C5 and C6: [compareVersions] *)


(** A leading sign is part of the number for [strconv.Atoi]. *)
Example segmentInt_signed :
  segmentInt "+5" = 5%Z /\ segmentInt "-5esr" = (-5)%Z
  /\ segmentInt "5-" = 5%Z /\ segmentInt "x5" = 0%Z.
Proof. repeat split. Qed.

(** C5 fails on the code: with one more segment on the right,
    [compareVersions "1" "1.0"] runs out of [aParts] and returns 0,
    while [compareVersions "1.0" "1"] finds [bParts] exhausted and
    returns 1. *)
Theorem compareVersions_not_antisymmetric :
  compareVersions "1" "1.0" = 0%Z
  /\ compareVersions "1.0" "1" = 1%Z
  /\ compareVersions "1" "1.0" <> (- compareVersions "1.0" "1")%Z.
Proof. repeat split. vm_compute. discriminate. Qed.

Lemma compareParts_drop (aParts bParts : list string) :
  forall i, compareParts i aParts bParts = comparePairs aParts (drop i bParts).
Proof.
  induction aParts as [|verA aRest IH]; intros i; cbn [compareParts comparePairs].
  - reflexivity.
  - destruct (bParts !! i) as [verB|] eqn:Hi.
    + rewrite (drop_S _ _ _ Hi), IH. reflexivity.
    + apply lookup_ge_None in Hi. now rewrite drop_ge.
Qed.

Lemma comparePairs_antisymmetric (aParts : list string) :
  forall bParts,
    length aParts = length bParts ->
    comparePairs aParts bParts = (- comparePairs bParts aParts)%Z.
Proof.
  induction aParts as [|verA aRest IH]; intros [|verB bRest] Hlen;
    try discriminate; cbn [comparePairs]; [reflexivity|].
  injection Hlen as Hlen. rewrite (IH _ Hlen).
  destruct (Z.gtb_spec (segmentInt verA) (segmentInt verB)),
    (Z.ltb_spec (segmentInt verA) (segmentInt verB)),
    (Z.gtb_spec (segmentInt verB) (segmentInt verA)),
    (Z.ltb_spec (segmentInt verB) (segmentInt verA));
    try lia; reflexivity.
Qed.

(** [compareVersions] is antisymmetric on two versions with the same
    number of segments. *)
Lemma compareVersions_antisymmetric_same_length (a b : string) :
  length (Split a ".") = length (Split b ".") ->
  compareVersions a b = (- compareVersions b a)%Z.
Proof.
  intros Hlen. unfold compareVersions. rewrite (String.eqb_sym b a).
  destruct (a =? b); [reflexivity|].
  rewrite !compareParts_drop. cbn [drop].
  now apply comparePairs_antisymmetric.
Qed.

Lemma compareVersions_antisymmetric_same_length_witness :
  length (Split "43.0.2" ".") = length (Split "43.0.1" ".")
  /\ compareVersions "43.0.2" "43.0.1"
     = (- compareVersions "43.0.1" "43.0.2")%Z.
Proof.
  split; [reflexivity|].
  apply (compareVersions_antisymmetric_same_length "43.0.2" "43.0.1").
  reflexivity.
Defined.

(** ** C1, C2, C3: [sha1Product] *)



Lemma append_empty_r (s : string) : s ++ "" = s.
Proof. induction s; simpl; congruence. Qed.

Lemma no_sep_HasSuffix (sep : ascii) (s t marker : string) :
  allRunes (fun c => negb (Ascii.eqb c sep)) s = true ->
  HasSuffix (s ++ t) (String sep marker) = HasSuffix t (String sep marker).
Proof.
  induction s as [|c s IH]; simpl; intros H; [reflexivity|].
  apply andb_prop in H as [Hc Hs]. rewrite (IH Hs).
  apply negb_true_iff in Hc. now rewrite Hc.
Qed.

Lemma no_sep_Contains (sep : ascii) (s t marker : string) :
  allRunes (fun c => negb (Ascii.eqb c sep)) s = true ->
  Contains (s ++ t) (String sep marker) = Contains t (String sep marker).
Proof.
  induction s as [|c s IH]; simpl; intros H; [reflexivity|].
  apply andb_prop in H as [Hc Hs]. rewrite (IH Hs).
  apply negb_true_iff in Hc. now rewrite Hc.
Qed.

Lemma SplitN_1 (s : string) (sep : ascii) : SplitN s sep 1 = [s].
Proof. now destruct s. Qed.

(** [strings.SplitN(s, sep, 2)] either finds no separator and returns
    [s] alone, or cuts [s] at its first separator. *)
Lemma SplitN_2_cases (s : string) (sep : ascii) :
  (SplitN s sep 2 = [s]
   /\ allRunes (fun c => negb (Ascii.eqb c sep)) s = true)
  \/ (exists front back,
         SplitN s sep 2 = [front; back]
         /\ s = front ++ String sep back
         /\ allRunes (fun c => negb (Ascii.eqb c sep)) front = true).
Proof.
  induction s as [|c s IH].
  - left. auto.
  - cbn [SplitN]. destruct (Ascii.eqb c sep) eqn:Hc.
    + right. exists "", s. apply Ascii.eqb_eq in Hc. subst.
      rewrite SplitN_1. auto.
    + destruct IH as [[-> Hs] | (front & back & -> & -> & Hfront)].
      * left. simpl. now rewrite Hc.
      * right. exists (String c front), back. simpl. now rewrite Hc.
Qed.

Lemma SplitN_2_prefixed (family rest : string) (sep : ascii) :
  allRunes (fun c => negb (Ascii.eqb c sep)) family = true ->
  SplitN (family ++ String sep rest) sep 2 = [family; rest].
Proof.
  induction family as [|c family IH]; intros H.
  - cbn [String.append SplitN]. now rewrite Ascii.eqb_refl, SplitN_1.
  - simpl in H. apply andb_prop in H as [Hc Hs].
    apply negb_true_iff in Hc.
    cbn [String.append SplitN]. now rewrite Hc, (IH Hs).
Qed.

Lemma sha1Product_firefox (suffix : string) :
  sha1Product ("firefox-" ++ suffix) = "firefox-" ++ firefoxSha1Product suffix.
Proof.
  unfold sha1Product.
  change ("firefox-" ++ suffix) with ("firefox" ++ String "-" suffix).
  now rewrite (SplitN_2_prefixed "firefox" suffix "-") by reflexivity.
Qed.

Lemma sha1Product_thunderbird (suffix : string) :
  sha1Product ("thunderbird-" ++ suffix)
  = "thunderbird-" ++ tBirdSha1Product suffix.
Proof.
  unfold sha1Product.
  change ("thunderbird-" ++ suffix)
    with ("thunderbird" ++ String "-" suffix).
  now rewrite (SplitN_2_prefixed "thunderbird" suffix "-") by reflexivity.
Qed.

Lemma firefoxSha1Product_update (suffix : string) :
  isUpdatePackage suffix = true -> firefoxSha1Product suffix = suffix.
Proof.
  unfold isUpdatePackage, firefoxSha1Product. intros ->.
  now destruct (HasSuffix suffix "-sha1").
Qed.

Lemma tBirdSha1Product_update (suffix : string) :
  isUpdatePackage suffix = true -> tBirdSha1Product suffix = suffix.
Proof.
  intros Hupd. unfold tBirdSha1Product.
  destruct (String.eqb_spec suffix "beta") as [->|_]; [discriminate|].
  destruct (String.eqb_spec suffix "beta-latest") as [->|_]; [discriminate|].
  destruct (String.eqb_spec suffix "ssl") as [->|_]; [discriminate|].
  destruct (String.eqb_spec suffix "latest") as [->|_]; [discriminate|].
  cbn [orb].
  destruct (SplitN_2_cases suffix "-")
    as [[Hsplit Hno] | (front & back & Hsplit & -> & Hno)];
    rewrite Hsplit; cbn [nth length Nat.eqb];
    match goal with |- (if ?c then _ else _) = _ => destruct c end;
    try reflexivity.
  - exfalso. unfold isUpdatePackage in Hupd.
    rewrite <- (append_empty_r suffix) in Hupd.
    rewrite (no_sep_HasSuffix "-"), (no_sep_Contains "-") in Hupd
      by assumption.
    discriminate.
  - destruct (String.eqb_spec back "ssl") as [->|_]; [|reflexivity].
    exfalso. unfold isUpdatePackage in Hupd.
    rewrite (no_sep_HasSuffix "-"), (no_sep_Contains "-") in Hupd
      by assumption.
    discriminate.
Qed.

(** C2: a product suffix that ends in the complete marker, or holds the
    partial marker followed by a base version, is returned unchanged by
    [sha1Product] in the firefox and in the thunderbird family,
    whatever version it embeds. *)
Theorem sha1Product_update_unchanged (suffix : string) :
  isUpdatePackage suffix = true ->
  sha1Product ("firefox-" ++ suffix) = "firefox-" ++ suffix
  /\ sha1Product ("thunderbird-" ++ suffix) = "thunderbird-" ++ suffix.
Proof.
  intros H.
  rewrite sha1Product_firefox, sha1Product_thunderbird.
  now rewrite firefoxSha1Product_update, tBirdSha1Product_update.
Qed.

Lemma sha1Product_update_unchanged_witness :
  isUpdatePackage "43.0.1-partial-41.0.2build1" = true
  /\ sha1Product ("firefox-" ++ "43.0.1-partial-41.0.2build1")
     = "firefox-" ++ "43.0.1-partial-41.0.2build1"
  /\ sha1Product ("thunderbird-" ++ "43.0.1-partial-41.0.2build1")
     = "thunderbird-" ++ "43.0.1-partial-41.0.2build1".
Proof.
  split; [reflexivity|].
  apply (sha1Product_update_unchanged "43.0.1-partial-41.0.2build1").
  reflexivity.
Defined.

(** [firefoxSha1Product] returns its argument or the sha1 alias
    suffix. *)
Lemma firefoxSha1Product_range (suffix : string) :
  firefoxSha1Product suffix = suffix
  \/ firefoxSha1Product suffix = firefoxSHA1ESRAliasSuffix.
Proof.
  unfold firefoxSha1Product.
  repeat match goal with
         | |- context [if ?c then _ else _] => destruct c
         end; auto.
Qed.

Lemma firefoxSha1Product_idempotent (suffix : string) :
  firefoxSha1Product (firefoxSha1Product suffix) = firefoxSha1Product suffix.
Proof.
  destruct (firefoxSha1Product_range suffix) as [H | H]; now rewrite !H.
Qed.

(** [tBirdSha1Product] returns its argument or one of four pinned
    suffixes. *)
Lemma tBirdSha1Product_range (suffix : string) :
  tBirdSha1Product suffix = suffix
  \/ In (tBirdSha1Product suffix)
        ["43.0b1"; "38.5.0-ssl"; "38.5.0"; "43.0b1-ssl"].
Proof.
  unfold tBirdSha1Product.
  repeat match goal with
         | |- context [if ?c then _ else _] => destruct c
         end;
    cbn; auto 10.
Qed.

Lemma tBirdSha1Product_idempotent (suffix : string) :
  tBirdSha1Product (tBirdSha1Product suffix) = tBirdSha1Product suffix.
Proof.
  destruct (tBirdSha1Product_range suffix) as [H | Hin]; [now rewrite !H|].
  cbn [In] in Hin.
  destruct Hin as [<- | [<- | [<- | [<- | []]]]]; reflexivity.
Qed.

(** C3: [sha1Product] is idempotent on every product string. *)
Theorem sha1Product_idempotent (product : string) :
  sha1Product (sha1Product product) = sha1Product product.
Proof.
  destruct (SplitN_2_cases product "-")
    as [[Hsplit _] | (front & back & Hsplit & -> & _)].
  - assert (H : sha1Product product = product)
      by (unfold sha1Product; now rewrite Hsplit).
    now rewrite !H.
  - destruct (String.eqb_spec front "firefox") as [-> | Hff].
    + change ("firefox" ++ String "-" back) with ("firefox-" ++ back).
      now rewrite !sha1Product_firefox, firefoxSha1Product_idempotent.
    + destruct (String.eqb_spec front "thunderbird") as [-> | Htb].
      * change ("thunderbird" ++ String "-" back)
          with ("thunderbird-" ++ back).
        now rewrite !sha1Product_thunderbird, tBirdSha1Product_idempotent.
      * assert (H : sha1Product (front ++ String "-" back)
                    = front ++ String "-" back).
        { unfold sha1Product. rewrite Hsplit. cbn [length nth Nat.eqb].
          apply String.eqb_neq in Hff, Htb. now rewrite Hff, Htb. }
        now rewrite !H.
Qed.

(** ** C8: [isWindowsXPUserAgent] *)

Lemma append_assoc (a b c : string) : (a ++ b) ++ c = a ++ (b ++ c).
Proof. induction a; simpl; congruence. Qed.

Lemma matchPrefix_spec (r : regexp) :
  forall s rest,
    In rest (matchPrefix r s) <-> exists m, matches r m /\ s = m ++ rest.
Proof.
  induction r as [|c| |r1 IH1 r2 IH2|r1 IH1 r2 IH2]; intros s rest;
    cbn [matchPrefix matches].
  - split.
    + intros [<- | []]. now exists "".
    + intros (m & -> & ->). now left.
  - destruct s as [|c' s'].
    + split; [intros [] | intros (m & -> & Hs); discriminate].
    + destruct (Ascii.eqb_spec c' c) as [-> | Hne]; split.
      * intros [<- | []]. now exists (String c "").
      * intros (m & -> & Hs). injection Hs as <-. now left.
      * intros [].
      * intros (m & -> & Hs). injection Hs as Hc _. congruence.
  - destruct s as [|c' s'].
    + split; [intros [] | intros (m & (c & _ & ->) & Hs); discriminate].
    + destruct (Ascii.eqb_spec c' "010") as [-> | Hne]; split.
      * intros [].
      * intros (m & (c & Hc & ->) & Hs). injection Hs as Hc' _. congruence.
      * intros [<- | []]. exists (String c' ""). split; [|reflexivity].
        now exists c'.
      * intros (m & (c & Hc & ->) & Hs). injection Hs as _ <-. now left.
  - rewrite in_flat_map. split.
    + intros (mid & H1 & H2).
      apply IH1 in H1 as (m1 & Hm1 & ->).
      apply IH2 in H2 as (m2 & Hm2 & ->).
      exists (m1 ++ m2). rewrite append_assoc. split; [|reflexivity].
      now exists m1, m2.
    + intros (m & (m1 & m2 & -> & Hm1 & Hm2) & ->).
      exists (m2 ++ rest). split.
      * apply IH1. exists m1. now rewrite append_assoc.
      * apply IH2. now exists m2.
  - rewrite in_app_iff, IH1, IH2. split.
    + intros [(m & Hm & ->) | (m & Hm & ->)]; exists m; auto.
    + intros (m & [Hm | Hm] & ->); [left | right]; now exists m.
Qed.

(** [MatchString] finds a match exactly when some substring of [s] is
    matched in full. *)
Lemma MatchString_spec (r : regexp) (s : string) :
  MatchString r s = true
  <-> exists pre m post, s = pre ++ m ++ post /\ matches r m.
Proof.
  split.
  - induction s as [|c s IH]; cbn [MatchString];
      destruct (matchPrefix r _) as [|rest rests] eqn:Hmp;
      try discriminate; intros H.
    + assert (Hin : In rest (matchPrefix r "")) by (rewrite Hmp; now left).
      apply matchPrefix_spec in Hin as (m & Hm & Hs).
      now exists "", m, rest.
    + destruct (IH H) as (pre & m & post & -> & Hm).
      now exists (String c pre), m, post.
    + assert (Hin : In rest (matchPrefix r (String c s)))
        by (rewrite Hmp; now left).
      apply matchPrefix_spec in Hin as (m & Hm & Hs).
      now exists "", m, rest.
  - intros (pre & m & post & -> & Hm).
    induction pre as [|c pre IH]; cbn [String.append].
    + assert (Hin : In post (matchPrefix r (m ++ post)))
        by (apply matchPrefix_spec; now exists m).
      destruct (m ++ post); cbn [MatchString];
        destruct (matchPrefix r _); auto; destruct Hin.
    + cbn [MatchString]. now destruct (matchPrefix r _).
Qed.

Lemma matches_lit (w m : string) : matches (lit w) m <-> m = w.
Proof.
  revert m. induction w as [|c w IH]; intros m; cbn [lit matches].
  - reflexivity.
  - split.
    + intros (m1 & m2 & -> & -> & Hm2). apply IH in Hm2. now subst.
    + intros ->. exists (String c ""), w. repeat split. now apply IH.
Qed.

Lemma matches_lit_dot_lit (w1 w2 m : string) :
  matches (Cat (lit w1) (Cat AnyCharNotNL (lit w2))) m
  <-> exists c, c <> "010"%char /\ m = w1 ++ String c w2.
Proof.
  cbn [matches]. split.
  - intros (m1 & m2 & -> & Hm1 & (m3 & m4 & -> & (c & Hc & ->) & Hm4)).
    apply matches_lit in Hm1, Hm4. subst. now exists c.
  - intros (c & Hc & ->).
    exists w1, (String c w2). repeat split; [now apply matches_lit|].
    exists (String c ""), w2. repeat split; [now exists c|].
    now apply matches_lit.
Qed.

Lemma matches_windowsXPRegex (m : string) :
  matches windowsXPRegex m <-> legacyWindows m.
Proof.
  unfold windowsXPRegex, legacyWindows.
  cbn [matches]. setoid_rewrite matches_lit_dot_lit.
  setoid_rewrite matches_lit. split.
  - intros (m1 & m2 & -> & -> & [(c & Hc & ->) | [-> | [(c & Hc & ->)
                                                       | (c & Hc & ->)]]]);
      [right; exists c | now left | right; exists c | right; exists c]; auto.
  - intros [-> | (c & Hc & [-> | [-> | ->]])].
    + exists "Windows ", "XP". auto.
    + exists "Windows ", ("NT 5" ++ String c "1"). split; [reflexivity|].
      split; [reflexivity|]. left. now exists c.
    + exists "Windows ", ("NT 5" ++ String c "2"). split; [reflexivity|].
      split; [reflexivity|]. right. right. left. now exists c.
    + exists "Windows ", ("NT 6" ++ String c "0"). split; [reflexivity|].
      split; [reflexivity|]. right. right. right. now exists c.
Qed.



Lemma isWindowsXPUserAgent_iff (userAgent : string) :
  isWindowsXPUserAgent userAgent = true
  <-> exists pre m post, userAgent = pre ++ m ++ post /\ legacyWindows m.
Proof.
  unfold isWindowsXPUserAgent. rewrite MatchString_spec.
  now setoid_rewrite matches_windowsXPRegex.
Qed.



(** ** C4: [mirrorBaseURL] *)

(** C4 as amended: with HTTPS required and an HTTPS base configured,
    [mirrorBaseURL] returns that base under [https://]; with HTTPS not
    required and an HTTP base configured, it returns that base under
    [http://]; in every other case, so also when HTTPS is required and
    only an HTTP base is configured, it returns the error
    "No mirror found.". *)
Theorem mirrorBaseURL_spec {LocationPath : Type}
    (b : BouncerHandler LocationPath) (requireHTTPS : bool) :
  (requireHTTPS = true /\ PinnedBaseURLHttps b <> "" ->
   mirrorBaseURL b requireHTTPS = ("https://" ++ PinnedBaseURLHttps b, None))
  /\ (requireHTTPS = false /\ PinnedBaseURLHttp b <> "" ->
      mirrorBaseURL b requireHTTPS = ("http://" ++ PinnedBaseURLHttp b, None))
  /\ (snd (mirrorBaseURL b requireHTTPS) <> None
      <-> ~ (requireHTTPS = true /\ PinnedBaseURLHttps b <> "")
          /\ ~ (requireHTTPS = false /\ PinnedBaseURLHttp b <> ""))
  /\ (snd (mirrorBaseURL b requireHTTPS) <> None ->
      mirrorBaseURL b requireHTTPS = ("", Some "No mirror found."))
  /\ (requireHTTPS = true /\ PinnedBaseURLHttps b = "" ->
      mirrorBaseURL b requireHTTPS = ("", Some "No mirror found.")).
Proof.
  unfold mirrorBaseURL.
  destruct (String.eqb_spec (PinnedBaseURLHttps b) "") as [Hs | Hs],
    (String.eqb_spec (PinnedBaseURLHttp b) "") as [Hp | Hp],
    requireHTTPS; cbn [negb andb snd];
    intuition (try discriminate; congruence).
Qed.

(** C4 as stated does not hold: when HTTPS is required and only an HTTP
    base is configured, [mirrorBaseURL] does not fall back to the HTTP
    base, it returns the error. *)
Lemma mirrorBaseURL_no_fallback :
  PinnedBaseURLHttps httpOnlyHandler = ""
  /\ PinnedBaseURLHttp httpOnlyHandler <> ""
  /\ mirrorBaseURL httpOnlyHandler true = ("", Some "No mirror found.")
  /\ mirrorBaseURL httpOnlyHandler true
     <> ("http://" ++ PinnedBaseURLHttp httpOnlyHandler, None).
Proof. repeat split; discriminate. Qed.

(** ** C7, C9, C10: [ServeHTTP] *)

Lemma writePair_empty (k v : string) :
  writePair k "" v = k ++ "=" ++ QueryEscape v.
Proof. reflexivity. Qed.

Lemma writePair_cons (k : string) (c : ascii) (buf v : string) :
  writePair k (String c buf) v
  = String c buf ++ "&" ++ k ++ "=" ++ QueryEscape v.
Proof.
  unfold writePair. cbn [String.length Nat.eqb]. now rewrite append_assoc.
Qed.

(** The query of the stub URL: the five parameters in key order. *)
Lemma Encode_stub_query (lang os product code sig : string) :
  Encode (Values_Set (Values_Set (Values_Set (Values_Set (Values_Set ∅
            "lang" lang) "os" os) "product" product)
            "attribution_code" code) "attribution_sig" sig)
  = "attribution_code=" ++ QueryEscape code
    ++ "&attribution_sig=" ++ QueryEscape sig
    ++ "&lang=" ++ QueryEscape lang
    ++ "&os=" ++ QueryEscape os
    ++ "&product=" ++ QueryEscape product.
Proof.
  unfold Encode.
  match goal with
  | |- context [merge_sort ?R ?l] =>
      let l' := eval vm_compute in (merge_sort R l) in
      change (merge_sort R l) with l'
  end.
  cbn [fold_left].
  repeat match goal with
         | |- context [?m !!! ?k] =>
             let l' := eval vm_compute in (m !!! k) in
             change (m !!! k) with l'
         end.
  cbn [fold_left].
  repeat match goal with
         | |- context [QueryEscape (String ?c ?s)] =>
             let l' := eval vm_compute in (QueryEscape (String c s)) in
             change (QueryEscape (String c s)) with l'
         end.
  rewrite writePair_empty. cbn [String.append].
  repeat (rewrite writePair_cons;
          repeat first [rewrite append_assoc
                       | progress cbn [String.append]]).
  reflexivity.
Qed.

Section HandlerProperties.

Context {LocationPath : Type}.
Variable ToString : LocationPath -> string -> string.
Variable NewAliasName : string -> string.
Variable BouncerParamsFromValues : Values -> BouncerParams.

Local Abbreviation serve :=
  (ServeHTTP ToString NewAliasName BouncerParamsFromValues).
Local Abbreviation params req := (BouncerParamsFromValues (URLQuery req)).

Lemma stubAttributionGate_withDefaults (b : BouncerHandler LocationPath)
    (p : BouncerParams) (isWinXpClient : bool) :
  stubAttributionGate b (withDefaults p) isWinXpClient
  = stubAttributionGate b p isWinXpClient.
Proof.
  unfold withDefaults, stubAttributionGate.
  destruct (OS p =? ""); cbn [Lang withOS];
    destruct (Lang p =? ""); reflexivity.
Qed.

Lemma stubAttributionGate_iff (b : BouncerHandler LocationPath)
    (p : BouncerParams) (isWinXpClient : bool) :
  stubAttributionGate b p isWinXpClient = true
  <-> StubRootURL b <> ""
      /\ AttributionCode p <> ""
      /\ AttributionSig p <> ""
      /\ Contains (Product p) "-stub" = true
      /\ isWinXpClient = false.
Proof.
  unfold stubAttributionGate.
  rewrite !andb_true_iff, !negb_true_iff, !String.eqb_neq. tauto.
Qed.

(** When the gate is open, [ServeHTTP] returns at the stub redirect. *)
Lemma ServeHTTP_gate_open (b : BouncerHandler LocationPath) (req : Request) :
  Product (params req) <> "" ->
  stubAttributionGate b (params req)
    (isWindowsXPUserAgent (UserAgent req)) = true ->
  serve b req = RedirectStub (stubAttributionURL b (withDefaults (params req))).
Proof.
  intros Hprod Hgate. unfold ServeHTTP.
  apply String.eqb_neq in Hprod. rewrite Hprod.
  fold (withDefaults (params req)).
  now rewrite stubAttributionGate_withDefaults, Hgate.
Qed.

(** When the gate is closed, [ServeHTTP] returns somewhere else. *)
Lemma ServeHTTP_gate_closed (b : BouncerHandler LocationPath) (req : Request) :
  stubAttributionGate b (params req)
    (isWindowsXPUserAgent (UserAgent req)) = false ->
  forall stubURL, serve b req <> RedirectStub stubURL.
Proof.
  intros Hgate stubURL. unfold ServeHTTP.
  destruct (Product (params req) =? ""); [discriminate|].
  fold (withDefaults (params req)).
  rewrite stubAttributionGate_withDefaults, Hgate.
  destruct (URL _ _ _ _ _ _ _) as [url [e|]]; [discriminate|].
  destruct (url =? ""); [discriminate|].
  now destruct (PrintOnly _).
Qed.

Lemma Contains_stub_nonempty (product : string) :
  Contains product "-stub" = true -> product <> "".
Proof. now intros H ->. Qed.

Lemma withDefaults_fixed (p : BouncerParams) :
  Product (withDefaults p) = Product p
  /\ AttributionCode (withDefaults p) = AttributionCode p
  /\ AttributionSig (withDefaults p) = AttributionSig p
  /\ PrintOnly (withDefaults p) = PrintOnly p
  /\ OS (withDefaults p) = (if OS p =? "" then DefaultOS else OS p)
  /\ Lang (withDefaults p) = (if Lang p =? "" then DefaultLang else Lang p).
Proof.
  unfold withDefaults.
  destruct (OS p =? ""); cbn [Lang withOS];
    destruct (Lang p =? ""); repeat split.
Qed.

Lemma stubAttributionURL_spec (b : BouncerHandler LocationPath)
    (p : BouncerParams) :
  stubAttributionURL b p
  = StubRootURL b ++ "?"
    ++ "attribution_code=" ++ QueryEscape (AttributionCode p)
    ++ "&attribution_sig=" ++ QueryEscape (AttributionSig p)
    ++ "&lang=" ++ QueryEscape (Lang p)
    ++ "&os=" ++ QueryEscape (OS p)
    ++ "&product=" ++ QueryEscape (Product p).
Proof. unfold stubAttributionURL. now rewrite Encode_stub_query. Qed.

(** C9: a request whose product parameter is empty is answered by a
    302 redirect to http://www.mozilla.org/ whatever its other
    parameters and headers and whatever the handler holds; nothing is
    logged and the status is not an error status. *)
Theorem no_product_redirects_home (b : BouncerHandler LocationPath)
    (req : Request) :
  Product (params req) = "" ->
  serve b req = RedirectHome
  /\ statusCode (serve b req) = 302%Z
  /\ redirectURL (serve b req) = Some "http://www.mozilla.org/"
  /\ logged (serve b req) = [].
Proof.
  intros Hprod.
  assert (H : serve b req = RedirectHome)
    by (unfold ServeHTTP; now rewrite Hprod).
  now rewrite H.
Qed.

(** C7: [ServeHTTP] returns at the stub-attribution redirect if and
    only if a stub root URL is configured, attribution_code and
    attribution_sig are both non-empty, the product contains "-stub"
    and the client is not a Windows XP or Vista one.  The stub URL is
    the stub root with attribution_code, attribution_sig, lang, os
    and product query-escaped; its product is the requested one,
    since the redirect is issued before [sha1Product] and [URL]
    run. *)
Theorem stub_redirect_iff (b : BouncerHandler LocationPath)
    (req : Request) :
  ((exists stubURL, serve b req = RedirectStub stubURL)
   <-> StubRootURL b <> ""
       /\ AttributionCode (params req) <> ""
       /\ AttributionSig (params req) <> ""
       /\ Contains (Product (params req)) "-stub" = true
       /\ isWindowsXPUserAgent (UserAgent req) = false)
  /\ (forall stubURL,
         serve b req = RedirectStub stubURL ->
         statusCode (serve b req) = 302%Z
         /\ redirectURL (serve b req) = Some stubURL
         /\ stubURL
         = StubRootURL b ++ "?"
           ++ "attribution_code="
           ++ QueryEscape (AttributionCode (params req))
           ++ "&attribution_sig="
           ++ QueryEscape (AttributionSig (params req))
           ++ "&lang="
           ++ QueryEscape (if Lang (params req) =? "" then DefaultLang
                           else Lang (params req))
           ++ "&os="
           ++ QueryEscape (if OS (params req) =? "" then DefaultOS
                           else OS (params req))
           ++ "&product=" ++ QueryEscape (Product (params req))).
Proof.
  destruct (stubAttributionGate b (params req)
              (isWindowsXPUserAgent (UserAgent req))) eqn:Hgate.
  - pose proof Hgate as Hcond.
    apply stubAttributionGate_iff in Hcond.
    assert (Hprod : Product (params req) <> "")
      by (apply Contains_stub_nonempty; tauto).
    pose proof (ServeHTTP_gate_open b req Hprod Hgate) as Hserve.
    split.
    + split; [tauto | eauto].
    + intros stubURL H. rewrite H. do 2 (split; [reflexivity|]).
      rewrite Hserve in H. injection H as <-.
      rewrite stubAttributionURL_spec.
      destruct (withDefaults_fixed (params req))
        as (-> & -> & -> & _ & -> & ->).
      reflexivity.
  - pose proof (ServeHTTP_gate_closed b req Hgate) as Hserve.
    split.
    + split.
      * intros (stubURL & H). now apply Hserve in H.
      * intros Hcond. apply stubAttributionGate_iff in Hcond. congruence.
    + intros stubURL H. now apply Hserve in H.
Qed.

(** C10: when the stub-attribution gate is open, [ServeHTTP] answers
    302 to the stub URL whatever the map holds, so also for a product
    that is in neither [Aliases] nor [ProductLocationMap]; the same
    request to the same handler without a stub root is answered 404
    for such a product. *)
Theorem stub_redirect_ignores_map (b : BouncerHandler LocationPath)
    (req : Request) :
  StubRootURL b <> "" ->
  AttributionCode (params req) <> "" ->
  AttributionSig (params req) <> "" ->
  Contains (Product (params req)) "-stub" = true ->
  isWindowsXPUserAgent (UserAgent req) = false ->
  serve b req
  = RedirectStub (stubAttributionURL b (withDefaults (params req)))
  /\ (forall m : BouncerMap LocationPath,
      serve (withLocations b m) req
      = RedirectStub (stubAttributionURL b (withDefaults (params req)))
      /\ statusCode (serve (withLocations b m) req) = 302%Z
      /\ redirectURL (serve (withLocations b m) req)
         = Some (stubAttributionURL b (withDefaults (params req))))
  /\ (forall m : BouncerMap LocationPath,
         Aliases m !! NewAliasName (Product (params req)) = None ->
         ProductLocationMap m !! Product (params req) = None ->
         serve (withoutStubRoot (withLocations b m)) req = NotFound
         /\ statusCode (serve (withoutStubRoot (withLocations b m)) req)
            = 404%Z).
Proof.
  intros Hroot Hcode Hsig Hstub Hxp.
  pose proof (Contains_stub_nonempty _ Hstub) as Hprod.
  split; [|split; intros m].
  - apply ServeHTTP_gate_open; [assumption|].
    apply stubAttributionGate_iff. auto.
  - assert (H : serve (withLocations b m) req
                = RedirectStub
                    (stubAttributionURL b (withDefaults (params req)))).
    { rewrite ServeHTTP_gate_open; [reflexivity | assumption |].
      apply stubAttributionGate_iff. cbn [withLocations StubRootURL].
      auto. }
    now rewrite H.
  - intros Halias Hproduct.
    assert (H : serve (withoutStubRoot (withLocations b m)) req = NotFound).
    { unfold ServeHTTP. apply String.eqb_neq in Hprod. rewrite Hprod.
      fold (withDefaults (params req)).
      rewrite stubAttributionGate_withDefaults.
      unfold stubAttributionGate at 1.
      cbn [withoutStubRoot StubRootURL String.eqb negb andb].
      rewrite Hxp, andb_false_r. unfold URL.
      destruct (withDefaults_fixed (params req)) as (-> & _).
      cbn [withoutStubRoot withLocations Locations].
      now rewrite Halias, Hproduct. }
    now rewrite H.
Qed.

End HandlerProperties.

Lemma no_product_redirects_home_witness :
  Product (exampleParamsFromValues (URLQuery bareRequest)) = ""
  /\ ServeHTTP String.append id exampleParamsFromValues stubHandler
       bareRequest = RedirectHome
  /\ statusCode (ServeHTTP String.append id exampleParamsFromValues
                   stubHandler bareRequest) = 302%Z
  /\ redirectURL (ServeHTTP String.append id exampleParamsFromValues
                 stubHandler bareRequest) = Some "http://www.mozilla.org/"
  /\ logged (ServeHTTP String.append id exampleParamsFromValues
               stubHandler bareRequest) = [].
Proof.
  split; [vm_compute; reflexivity|].
  apply (no_product_redirects_home String.append id exampleParamsFromValues
           stubHandler bareRequest).
  vm_compute; reflexivity.
Defined.

Lemma stub_redirect_ignores_map_witness :
  (StubRootURL stubHandler =? "") = false
  /\ (AttributionCode (exampleParamsFromValues (URLQuery stubRequest)) =? "")
     = false
  /\ (AttributionSig (exampleParamsFromValues (URLQuery stubRequest)) =? "")
     = false
  /\ Contains (Product (exampleParamsFromValues (URLQuery stubRequest)))
       "-stub" = true
  /\ isWindowsXPUserAgent (UserAgent stubRequest) = false
  /\ ServeHTTP String.append id exampleParamsFromValues
       stubHandler stubRequest
     = RedirectStub
         (stubAttributionURL stubHandler
            (withDefaults (exampleParamsFromValues (URLQuery stubRequest)))).
Proof.
  repeat (split; [vm_compute; reflexivity|]).
  apply (stub_redirect_ignores_map String.append id exampleParamsFromValues
           stubHandler stubRequest);
    try (apply String.eqb_neq); vm_compute; reflexivity.
Defined.

(** The stub request against the empty map: the redirect goes to the
    stub service, with the product as requested. *)
Example stubRequest_outcome :
  ServeHTTP String.append id exampleParamsFromValues stubHandler stubRequest
  = RedirectStub
      ("https://stubattribution.example/?attribution_code="
       ++ "source%3Dgoogle%26medium%3Dcpc&attribution_sig=abc123"
       ++ "&lang=en-US&os=win&product=firefox-stub").
Proof. vm_compute. reflexivity. Qed.

(** The same request without a stub service: the product is unknown. *)
Example stubRequest_without_stub_root :
  ServeHTTP String.append id exampleParamsFromValues
    (withoutStubRoot stubHandler) stubRequest = NotFound.
Proof. vm_compute. reflexivity. Qed.

(** ** More on [compareVersions] *)

Lemma comparePairs_same (parts : list string) : comparePairs parts parts = 0%Z.
Proof.
  induction parts as [|ver rest IH]; cbn [comparePairs]; [reflexivity|].
  rewrite IH.
  destruct (Z.gtb_spec (segmentInt ver) (segmentInt ver)),
    (Z.ltb_spec (segmentInt ver) (segmentInt ver)); try lia; reflexivity.
Qed.

(** The [a == b] shortcut and the index into [bParts] change nothing:
    [compareVersions] walks the two segment lists side by side. *)
Lemma compareVersions_pairs (a b : string) :
  compareVersions a b = comparePairs (Split a ".") (Split b ".").
Proof.
  unfold compareVersions. destruct (String.eqb_spec a b) as [-> | _].
  - now rewrite comparePairs_same.
  - now rewrite compareParts_drop.
Qed.

Lemma comparePairs_values (aParts : list string) :
  forall aParts' bParts bParts',
    map segmentInt aParts = map segmentInt aParts' ->
    map segmentInt bParts = map segmentInt bParts' ->
    comparePairs aParts bParts = comparePairs aParts' bParts'.
Proof.
  induction aParts as [|verA aRest IH];
    intros [|verA' aRest'] bParts bParts' Ha Hb; try discriminate;
    [reflexivity|].
  destruct bParts as [|verB bRest], bParts' as [|verB' bRest'];
    try discriminate; [reflexivity|].
  cbn [map] in Ha, Hb. injection Ha as Ha Ha'. injection Hb as Hb Hb'.
  cbn [comparePairs]. rewrite Ha, Hb. now rewrite (IH _ _ _ Ha' Hb').
Qed.

(** [compareVersions] sees a version only through the integers of its
    segments: two versions with the same segment values are
    interchangeable on either side. *)
Theorem compareVersions_by_segment_values (a a' b b' : string) :
  map segmentInt (Split a ".") = map segmentInt (Split a' ".") ->
  map segmentInt (Split b ".") = map segmentInt (Split b' ".") ->
  compareVersions a b = compareVersions a' b'.
Proof.
  intros Ha Hb. rewrite !compareVersions_pairs.
  now apply comparePairs_values.
Qed.

Lemma compareVersions_by_segment_values_witness :
  map segmentInt (Split "38.5.1esr" ".") = map segmentInt (Split "38.05.1" ".")
  /\ map segmentInt (Split "38.6.0b2" ".") = map segmentInt (Split "38.6.0" ".")
  /\ compareVersions "38.5.1esr" "38.6.0b2" = compareVersions "38.05.1" "38.6.0".
Proof.
  split; [reflexivity|]. split; [reflexivity|].
  apply (compareVersions_by_segment_values
           "38.5.1esr" "38.05.1" "38.6.0b2" "38.6.0");
    reflexivity.
Defined.

Lemma comparePairs_range (aParts : list string) :
  forall bParts,
    comparePairs aParts bParts = (-1)%Z
    \/ comparePairs aParts bParts = 0%Z
    \/ comparePairs aParts bParts = 1%Z.
Proof.
  induction aParts as [|verA aRest IH]; intros [|verB bRest];
    cbn [comparePairs]; auto.
  destruct (_ >? _)%Z; auto. destruct (_ <? _)%Z; auto.
Qed.

(** [compareVersions] returns -1, 0 or 1 and nothing else, on all
    strings, whether they look like versions or not. *)
Theorem compareVersions_range (a b : string) :
  compareVersions a b = (-1)%Z
  \/ compareVersions a b = 0%Z
  \/ compareVersions a b = 1%Z.
Proof. rewrite compareVersions_pairs. apply comparePairs_range. Qed.

Lemma comparePairs_less_trans (aParts : list string) :
  forall bParts cParts,
    comparePairs aParts bParts = (-1)%Z ->
    comparePairs bParts cParts = (-1)%Z ->
    comparePairs aParts cParts = (-1)%Z.
Proof.
  induction aParts as [|verA aRest IH];
    intros [|verB bRest] [|verC cRest]; cbn [comparePairs];
    intros Hab Hbc; try discriminate.
  specialize (IH bRest cRest).
  destruct (Z.gtb_spec (segmentInt verA) (segmentInt verB));
    [discriminate|].
  destruct (Z.gtb_spec (segmentInt verB) (segmentInt verC));
    [discriminate|].
  destruct (Z.ltb_spec (segmentInt verA) (segmentInt verB)),
    (Z.ltb_spec (segmentInt verB) (segmentInt verC)),
    (Z.gtb_spec (segmentInt verA) (segmentInt verC)),
    (Z.ltb_spec (segmentInt verA) (segmentInt verC));
    try lia; auto.
Qed.

Lemma comparePairs_greater_trans (aParts : list string) :
  forall bParts cParts,
    comparePairs aParts bParts = 1%Z ->
    comparePairs bParts cParts = 1%Z ->
    comparePairs aParts cParts = 1%Z.
Proof.
  induction aParts as [|verA aRest IH];
    intros [|verB bRest] [|verC cRest]; cbn [comparePairs];
    intros Hab Hbc; try discriminate; auto.
  specialize (IH bRest cRest).
  destruct (Z.gtb_spec (segmentInt verA) (segmentInt verB)),
    (Z.gtb_spec (segmentInt verB) (segmentInt verC)),
    (Z.ltb_spec (segmentInt verA) (segmentInt verB)),
    (Z.ltb_spec (segmentInt verB) (segmentInt verC)),
    (Z.gtb_spec (segmentInt verA) (segmentInt verC)),
    (Z.ltb_spec (segmentInt verA) (segmentInt verC));
    try lia; try discriminate; auto.
Qed.

(** The answers -1 and 1 of [compareVersions] are each transitive. *)
Theorem compareVersions_transitive (a b c : string) :
  (compareVersions a b = (-1)%Z -> compareVersions b c = (-1)%Z ->
   compareVersions a c = (-1)%Z)
  /\ (compareVersions a b = 1%Z -> compareVersions b c = 1%Z ->
      compareVersions a c = 1%Z).
Proof.
  rewrite !compareVersions_pairs. split.
  - apply comparePairs_less_trans.
  - apply comparePairs_greater_trans.
Qed.

Lemma comparePairs_prefix (aParts : list string) :
  forall bParts,
    map segmentInt aParts
    = take (length aParts) (map segmentInt bParts) ->
    comparePairs aParts bParts = 0%Z
    /\ (length aParts < length bParts ->
        comparePairs bParts aParts = 1%Z).
Proof.
  induction aParts as [|verA aRest IH]; intros [|verB bRest] H;
    cbn [comparePairs length]; try discriminate.
  - split; [reflexivity | lia].
  - split; [reflexivity | now intros _].
  - cbn [map take length] in H. injection H as Hhd Htl.
    destruct (IH _ Htl) as [H0 H1]. rewrite H0, Hhd.
    destruct (Z.gtb_spec (segmentInt verB) (segmentInt verB)),
      (Z.ltb_spec (segmentInt verB) (segmentInt verB)); lia.
Qed.

(** A version whose segments all have the values of the first segments
    of a longer version compares equal to it, and the longer one
    compares greater the other way round: the order of the arguments
    decides. *)
Theorem compareVersions_truncated (a b : string) :
  map segmentInt (Split a ".")
  = take (length (Split a ".")) (map segmentInt (Split b ".")) ->
  length (Split a ".") < length (Split b ".") ->
  compareVersions a b = 0%Z /\ compareVersions b a = 1%Z.
Proof.
  intros Hvalues Hlen. rewrite !compareVersions_pairs.
  destruct (comparePairs_prefix _ _ Hvalues) as [H0 H1]. auto.
Qed.

Lemma compareVersions_truncated_witness :
  map segmentInt (Split "43.0" ".")
  = take (length (Split "43.0" ".")) (map segmentInt (Split "43.0.1" "."))
  /\ length (Split "43.0" ".") < length (Split "43.0.1" ".")
  /\ compareVersions "43.0" "43.0.1" = 0%Z
  /\ compareVersions "43.0.1" "43.0" = 1%Z.
Proof.
  split; [reflexivity|]. split; [vm_compute; lia|].
  apply (compareVersions_truncated "43.0" "43.0.1");
    [reflexivity | vm_compute; lia].
Defined.

(** ** More on [sha1Product] *)

(** A product of another family than firefox and thunderbird, or with
    no ["-"] at all, is returned as it is. *)
Theorem sha1Product_other_family (product : string) :
  (forall suffix, product <> "firefox-" ++ suffix) ->
  (forall suffix, product <> "thunderbird-" ++ suffix) ->
  sha1Product product = product.
Proof.
  intros Hff Htb. unfold sha1Product.
  destruct (SplitN_2_cases product "-")
    as [[-> _] | (front & back & -> & -> & _)]; [reflexivity|].
  cbn [length nth Nat.eqb].
  destruct (String.eqb_spec front "firefox") as [-> | _];
    [now destruct (Hff back)|].
  destruct (String.eqb_spec front "thunderbird") as [-> | _];
    [now destruct (Htb back)|].
  reflexivity.
Qed.

Lemma sha1Product_other_family_witness :
  (forall suffix, "seamonkey-2.40-ssl" <> "firefox-" ++ suffix)
  /\ (forall suffix, "seamonkey-2.40-ssl" <> "thunderbird-" ++ suffix)
  /\ sha1Product "seamonkey-2.40-ssl" = "seamonkey-2.40-ssl".
Proof.
  assert (Hff : forall suffix, "seamonkey-2.40-ssl" <> "firefox-" ++ suffix)
    by (intros suffix H; discriminate H).
  assert (Htb : forall suffix,
             "seamonkey-2.40-ssl" <> "thunderbird-" ++ suffix)
    by (intros suffix H; discriminate H).
  split; [exact Hff|]. split; [exact Htb|].
  exact (sha1Product_other_family "seamonkey-2.40-ssl" Hff Htb).
Defined.

(** In the firefox family the requested version and any qualifier are
    dropped: a suffix that ends in ["-sha1"] or is an update package is
    kept, every other one becomes the sha1 alias, whatever version it
    names. *)
Theorem sha1Product_firefox_alias (suffix : string) :
  sha1Product ("firefox-" ++ suffix)
  = if HasSuffix suffix "-sha1" || isUpdatePackage suffix
    then "firefox-" ++ suffix
    else "firefox-sha1".
Proof.
  rewrite sha1Product_firefox. unfold firefoxSha1Product, isUpdatePackage.
  destruct (HasSuffix suffix "-sha1"); [reflexivity|].
  now destruct (HasSuffix suffix "-complete" || Contains suffix "-partial-").
Qed.

Lemma HasPrefix_empty (s : string) : HasPrefix s "" = true.
Proof. now destruct s. Qed.

Lemma dashFree_not_dashed (ver rest other : string) :
  dashFree other = true -> ver ++ String "-" rest <> other.
Proof.
  intros Hfree H.
  assert (Hc : Contains other "-" = false).
  { rewrite <- (append_empty_r other).
    now rewrite (no_sep_Contains "-" other "" "" Hfree). }
  rewrite <- H in Hc. clear H.
  induction ver as [|c ver IH]; cbn in Hc.
  - now rewrite HasPrefix_empty in Hc.
  - apply orb_false_elim in Hc as [_ Hc]. auto.
Qed.

(** The thunderbird suffix with no ["-"] that is not an alias: a
    version below its ceiling is kept, any other is replaced by the
    ceiling, so the result never compares above the ceiling. *)
Theorem tBirdSha1Product_version (ver : string) :
  dashFree ver = true ->
  ver <> "beta" -> ver <> "ssl" -> ver <> "latest" ->
  tBirdSha1Product ver = tBirdCapped ver
  /\ (compareVersions (tBirdSha1Product ver) (tBirdCeiling ver) <= 0)%Z.
Proof.
  intros Hfree Hbeta Hssl Hlatest.
  assert (H : tBirdSha1Product ver = tBirdCapped ver).
  { unfold tBirdSha1Product, tBirdCapped, tBirdCeiling.
    apply String.eqb_neq in Hbeta, Hssl, Hlatest.
    rewrite Hbeta, Hssl, Hlatest.
    destruct (String.eqb_spec ver "beta-latest") as [-> | _];
      [discriminate|].
    cbn [orb].
    destruct (SplitN_2_cases ver "-")
      as [[-> _] | (front & back & _ & -> & _)].
    - cbn [nth length Nat.eqb]. reflexivity.
    - exfalso. now apply (dashFree_not_dashed front back _ Hfree). }
  split; [exact H|]. rewrite H. unfold tBirdCapped.
  destruct (Z.eqb_spec (compareVersions ver (tBirdCeiling ver)) (-1))
    as [-> | _]; [lia|].
  unfold compareVersions. now rewrite String.eqb_refl.
Qed.

Lemma tBirdSha1Product_version_witness :
  dashFree "45.2.0" = true
  /\ ("45.2.0" =? "beta") = false /\ ("45.2.0" =? "ssl") = false
  /\ ("45.2.0" =? "latest") = false
  /\ tBirdSha1Product "45.2.0" = tBirdCapped "45.2.0"
  /\ (compareVersions (tBirdSha1Product "45.2.0") (tBirdCeiling "45.2.0")
      <= 0)%Z.
Proof.
  do 4 (split; [reflexivity|]).
  apply (tBirdSha1Product_version "45.2.0"); [reflexivity | | |];
    intros H; discriminate H.
Defined.

Lemma tBirdSha1Product_qualified (ver qualifier : string) :
  dashFree ver = true ->
  ver ++ String "-" qualifier <> "beta-latest" ->
  tBirdSha1Product (ver ++ String "-" qualifier)
  = if (compareVersions ver (tBirdCeiling ver) =? -1)%Z
    then ver ++ String "-" qualifier
    else if qualifier =? "ssl" then tBirdCeiling ver ++ "-ssl"
         else ver ++ String "-" qualifier.
Proof.
  intros Hfree Halias. unfold tBirdSha1Product, tBirdCeiling.
  destruct (String.eqb_spec (ver ++ String "-" qualifier) "beta") as [H | _];
    [now apply dashFree_not_dashed in H|].
  destruct (String.eqb_spec (ver ++ String "-" qualifier) "beta-latest")
    as [H | _]; [contradiction|].
  destruct (String.eqb_spec (ver ++ String "-" qualifier) "ssl") as [H | _];
    [now apply dashFree_not_dashed in H|].
  destruct (String.eqb_spec (ver ++ String "-" qualifier) "latest")
    as [H | _]; [now apply dashFree_not_dashed in H|].
  cbn [orb]. rewrite (SplitN_2_prefixed ver qualifier "-" Hfree).
  cbn [nth length Nat.eqb]. reflexivity.
Qed.

(** The thunderbird suffix [<version>-ssl]: the qualifier is kept and
    the version is held at its ceiling. *)
Theorem tBirdSha1Product_ssl (ver : string) :
  dashFree ver = true ->
  tBirdSha1Product (ver ++ "-ssl") = tBirdCapped ver ++ "-ssl".
Proof.
  intros Hfree.
  change (ver ++ "-ssl") with (ver ++ String "-" "ssl").
  rewrite tBirdSha1Product_qualified; [|assumption|].
  - unfold tBirdCapped. now destruct (_ =? _)%Z.
  - intros H.
    apply (f_equal (fun s => HasSuffix s "-ssl")) in H.
    rewrite (no_sep_HasSuffix "-" ver _ "ssl" Hfree) in H. discriminate H.
Qed.

Lemma tBirdSha1Product_ssl_witness :
  dashFree "45.2.0" = true
  /\ tBirdSha1Product ("45.2.0" ++ "-ssl") = tBirdCapped "45.2.0" ++ "-ssl".
Proof.
  split; [reflexivity|].
  apply (tBirdSha1Product_ssl "45.2.0"). reflexivity.
Defined.

(** The thunderbird suffix [<version>-<qualifier>] with a qualifier
    other than ssl is never pinned, however its version compares. *)
Theorem tBirdSha1Product_other_qualifier (ver qualifier : string) :
  dashFree ver = true ->
  qualifier <> "ssl" ->
  ver ++ String "-" qualifier <> "beta-latest" ->
  tBirdSha1Product (ver ++ String "-" qualifier)
  = ver ++ String "-" qualifier.
Proof.
  intros Hfree Hssl Halias.
  rewrite tBirdSha1Product_qualified by assumption.
  apply String.eqb_neq in Hssl. rewrite Hssl.
  now destruct (_ =? _)%Z.
Qed.

Lemma tBirdSha1Product_other_qualifier_witness :
  dashFree "45.2.0" = true
  /\ ("stub" =? "ssl") = false
  /\ ("45.2.0" ++ String "-" "stub" =? "beta-latest") = false
  /\ tBirdSha1Product ("45.2.0" ++ String "-" "stub")
     = "45.2.0" ++ String "-" "stub"
  /\ compareVersions "45.2.0" (tBirdCeiling "45.2.0") = 1%Z.
Proof.
  do 3 (split; [reflexivity|]). split; [|reflexivity].
  apply (tBirdSha1Product_other_qualifier "45.2.0" "stub");
    [reflexivity | |]; intros H; discriminate H.
Defined.

(** ** More on [URL] and [ServeHTTP] *)

Lemma sha1Product_twice (product : string) :
  sha1Product (sha1Product product) = sha1Product product.
Proof.
  destruct (SplitN_2_cases product "-")
    as [[Hsplit _] | (front & back & Hsplit & -> & _)].
  - assert (H : sha1Product product = product)
      by (unfold sha1Product; now rewrite Hsplit).
    now rewrite !H.
  - destruct (String.eqb_spec front "firefox") as [-> | Hff];
      [change ("firefox" ++ String "-" back) with ("firefox-" ++ back);
       now rewrite !sha1Product_firefox, firefoxSha1Product_idempotent|].
    destruct (String.eqb_spec front "thunderbird") as [-> | Htb];
      [change ("thunderbird" ++ String "-" back)
         with ("thunderbird-" ++ back);
       now rewrite !sha1Product_thunderbird, tBirdSha1Product_idempotent|].
    assert (H : sha1Product (front ++ String "-" back)
                = front ++ String "-" back).
    { unfold sha1Product. rewrite Hsplit. cbn [length nth Nat.eqb].
      apply String.eqb_neq in Hff, Htb. now rewrite Hff, Htb. }
    now rewrite !H.
Qed.

Lemma sha1Product_nonempty (product : string) :
  product <> "" -> sha1Product product <> "".
Proof.
  intros Hne. unfold sha1Product.
  destruct (SplitN_2_cases product "-")
    as [[-> _] | (front & back & -> & -> & _)]; [assumption|].
  cbn [length nth Nat.eqb].
  destruct (front =? "firefox"); [discriminate|].
  destruct (front =? "thunderbird"); [discriminate | assumption].
Qed.

Lemma HasPrefix_append (prefix rest : string) :
  HasPrefix (prefix ++ rest) prefix = true.
Proof.
  induction prefix as [|c prefix IH]; cbn.
  - apply HasPrefix_empty.
  - now rewrite Ascii.eqb_refl, IH.
Qed.

Section HandlerMore.

Context {LocationPath : Type}.
Variable ToString : LocationPath -> string -> string.
Variable NewAliasName : string -> string.
Variable BouncerParamsFromValues : Values -> BouncerParams.

Local Abbreviation serve :=
  (ServeHTTP ToString NewAliasName BouncerParamsFromValues).
Local Abbreviation params req := (BouncerParamsFromValues (URLQuery req)).
Local Abbreviation url := (URL ToString NewAliasName).

(** [URL] in terms of the product looked up. *)
Lemma URL_aliasTarget (b : BouncerHandler LocationPath) (pinHttps : bool)
    (lang os product : string) :
  url b pinHttps lang os product
  = match ProductLocationMap (Locations b)
            !! aliasTarget NewAliasName (Locations b) product with
    | None => ("", None)
    | Some productData =>
        match OsLocations productData !! os with
        | None => ("", None)
        | Some locationPath =>
            match mirrorBaseURL b (pinHttps || SSLOnly productData) with
            | (mirrorBase, None) =>
                (mirrorBase ++ ToString locationPath lang, None)
            | (_, Some e) => ("", Some e)
            end
        end
    end.
Proof.
  unfold URL, aliasTarget.
  destruct (ProductLocationMap _ !! _) as [productData|]; [|reflexivity].
  destruct (OsLocations _ !! _) as [locationPath|]; [|reflexivity].
  unfold mirrorBaseURL.
  destruct (negb (PinnedBaseURLHttps b =? "") && _); [reflexivity|].
  destruct (negb (PinnedBaseURLHttp b =? "") && _); reflexivity.
Qed.

(** [URL] returns a URL or an error, never both: the only error is
    "No mirror found.", it comes with the empty URL, and a URL that is
    not empty is one of the two configured bases, under its scheme,
    followed by the rendered location. *)
Theorem URL_url_or_error (b : BouncerHandler LocationPath) (pinHttps : bool)
    (lang os product : string) :
  (forall e, snd (url b pinHttps lang os product) = Some e ->
             e = "No mirror found."
             /\ fst (url b pinHttps lang os product) = "")
  /\ (fst (url b pinHttps lang os product) <> "" ->
      snd (url b pinHttps lang os product) = None
      /\ exists locationPath,
           fst (url b pinHttps lang os product)
           = "https://" ++ PinnedBaseURLHttps b ++ ToString locationPath lang
           \/ fst (url b pinHttps lang os product)
              = "http://" ++ PinnedBaseURLHttp b ++ ToString locationPath lang).
Proof.
  rewrite URL_aliasTarget.
  destruct (ProductLocationMap _ !! _) as [productData|];
    [|split; [discriminate | now intros []]].
  destruct (OsLocations _ !! _) as [locationPath|];
    [|split; [discriminate | now intros []]].
  unfold mirrorBaseURL.
  destruct (negb (PinnedBaseURLHttps b =? "") && _);
    [|destruct (negb (PinnedBaseURLHttp b =? "") && _)]; cbn [fst snd].
  - split; [discriminate|]. intros _. split; [reflexivity|].
    exists locationPath. left. now rewrite append_assoc.
  - split; [discriminate|]. intros _. split; [reflexivity|].
    exists locationPath. right. now rewrite append_assoc.
  - split; [|now intros []]. intros e [= <-]. auto.
Qed.

(** An SSL-only product, and any product under a pinned request, is
    never given an [http://] URL: [URL] returns an [https://] one, or
    none. *)
Theorem URL_https_only (b : BouncerHandler LocationPath) (pinHttps : bool)
    (lang os product : string) (productData : ProductLocation LocationPath) :
  ProductLocationMap (Locations b)
    !! aliasTarget NewAliasName (Locations b) product = Some productData ->
  pinHttps || SSLOnly productData = true ->
  HasPrefix (fst (url b pinHttps lang os product)) "http://" = false
  /\ (fst (url b pinHttps lang os product) <> "" ->
      HasPrefix (fst (url b pinHttps lang os product)) "https://" = true).
Proof.
  intros Hfound Hssl. rewrite URL_aliasTarget, Hfound.
  destruct (OsLocations _ !! _) as [locationPath|];
    [|split; [reflexivity | now intros []]].
  unfold mirrorBaseURL. rewrite Hssl, andb_true_r, andb_false_r.
  destruct (negb (PinnedBaseURLHttps b =? ""));
    [|split; [reflexivity | now intros []]].
  cbn [fst]. split; [reflexivity|]. intros _.
  rewrite append_assoc. apply HasPrefix_append.
Qed.

(** An alias is followed once and shadows a product of its name: when
    the product is an alias, [URL] answers as it does for the alias's
    target in a map without aliases. *)
Theorem URL_alias_once (b : BouncerHandler LocationPath) (pinHttps : bool)
    (lang os product target : string) :
  Aliases (Locations b) !! NewAliasName product = Some target ->
  url b pinHttps lang os product
  = url (withoutAliases b) pinHttps lang os target.
Proof.
  intros Halias. rewrite !URL_aliasTarget. unfold aliasTarget.
  rewrite Halias. cbn [withoutAliases withLocations Locations Aliases
                       ProductLocationMap].
  now rewrite lookup_empty.
Qed.

(** Past the two early returns [ServeHTTP] hands the result of [URL]
    for the product looked up to the response. *)
Lemma ServeHTTP_resolution (b : BouncerHandler LocationPath)
    (req : Request) :
  Product (params req) <> "" ->
  stubAttributionGate b (params req)
    (isWindowsXPUserAgent (UserAgent req)) = false ->
  serve b req
  = deliver (PrintOnly (params req)) (CacheTime b)
      (url b (shouldPinHttps b req)
         (Lang (withDefaults (params req)))
         (OS (withDefaults (params req)))
         (lookedUpProduct (withDefaults (params req))
            (isWindowsXPUserAgent (UserAgent req)))).
Proof.
  intros Hprod Hgate. unfold ServeHTTP, deliver, lookedUpProduct.
  apply String.eqb_neq in Hprod. rewrite Hprod.
  fold (withDefaults (params req)).
  rewrite stubAttributionGate_withDefaults, Hgate.
  destruct (withDefaults_fixed (params req)) as (_ & _ & _ & Hprint & _).
  destruct ((OS (withDefaults (params req)) =? "win") && _);
    cbn [withProduct Lang OS Product PrintOnly]; rewrite Hprint;
    reflexivity.
Qed.

(** The three ways through [ServeHTTP]. *)
Lemma ServeHTTP_cases (b : BouncerHandler LocationPath) (req : Request) :
  serve b req = RedirectHome
  \/ (exists stubURL, serve b req = RedirectStub stubURL)
  \/ (Product (params req) <> ""
      /\ stubAttributionGate b (params req)
           (isWindowsXPUserAgent (UserAgent req)) = false
      /\ serve b req
         = deliver (PrintOnly (params req)) (CacheTime b)
             (url b (shouldPinHttps b req)
                (Lang (withDefaults (params req)))
                (OS (withDefaults (params req)))
                (lookedUpProduct (withDefaults (params req))
                   (isWindowsXPUserAgent (UserAgent req))))).
Proof.
  destruct (String.eqb_spec (Product (params req)) "") as [Hprod | Hprod].
  - left. unfold ServeHTTP. now rewrite Hprod.
  - destruct (stubAttributionGate b (params req)
                (isWindowsXPUserAgent (UserAgent req))) eqn:Hgate.
    + right. left. eexists.
      apply (ServeHTTP_gate_open ToString NewAliasName
               BouncerParamsFromValues b req Hprod Hgate).
    + right. right. split; [assumption|]. split; [reflexivity|].
      now apply ServeHTTP_resolution.
Qed.

Lemma deliver_print (printOnly : bool) (cacheTime : Z)
    (result : string * option error) :
  deliver true cacheTime result = printed (deliver printOnly cacheTime result).
Proof.
  unfold deliver. destruct result as [u [e|]]; [reflexivity|].
  destruct (u =? ""); [reflexivity|]. now destruct printOnly.
Qed.

(** Asking for the URL as text changes nothing but the last step: the
    request with print set is answered by the text of the very URL, and
    with the very Cache-Control, that the same request without print is
    redirected to; every other answer is the same. *)
Theorem ServeHTTP_print (b : BouncerHandler LocationPath)
    (req printReq : Request) :
  params printReq = withPrintOnly (params req) true ->
  UserAgent printReq = UserAgent req ->
  shouldPinHttps b printReq = shouldPinHttps b req ->
  serve b printReq = printed (serve b req).
Proof.
  intros Hparams Hua Hpin.
  assert (Hgate : forall x, stubAttributionGate b (params printReq) x
                            = stubAttributionGate b (params req) x)
    by (intros x; now rewrite Hparams).
  assert (Hdef : withDefaults (params printReq)
                 = withPrintOnly (withDefaults (params req)) true).
  { rewrite Hparams. destruct (params req) as [os prod lang pr code sig].
    unfold withDefaults, withPrintOnly, withOS, withLang. cbn.
    destruct (os =? ""); cbn; destruct (lang =? ""); reflexivity. }
  destruct (String.eqb_spec (Product (params req)) "") as [Hprod | Hprod].
  - unfold ServeHTTP. rewrite Hparams. cbn [withPrintOnly Product].
    now rewrite Hprod.
  - assert (Hprod' : Product (params printReq) <> "")
      by now rewrite Hparams.
    destruct (stubAttributionGate b (params req)
                (isWindowsXPUserAgent (UserAgent req))) eqn:Hg.
    + rewrite (ServeHTTP_gate_open _ _ _ b req Hprod Hg).
      rewrite (ServeHTTP_gate_open _ _ _ b printReq Hprod')
        by now rewrite Hua, Hgate.
      rewrite Hdef. cbn [printed]. now rewrite !stubAttributionURL_spec.
    + rewrite (ServeHTTP_resolution b req Hprod Hg).
      rewrite (ServeHTTP_resolution b printReq Hprod')
        by now rewrite Hua, Hgate.
      rewrite Hdef, Hpin, Hua, Hparams.
      cbn [withPrintOnly PrintOnly Lang OS].
      unfold lookedUpProduct. cbn [withPrintOnly OS Product].
      apply deliver_print.
Qed.


(** Away from ["win"] the user agent plays no part: with the stub
    gate closed for every client, two requests that differ in nothing
    but the user agent get the same answer, so no pinning is done for
    any other OS, ["win64"] included. *)
Theorem ServeHTTP_user_agent_off_win (b : BouncerHandler LocationPath)
    (req req' : Request) :
  params req' = params req ->
  shouldPinHttps b req' = shouldPinHttps b req ->
  OS (params req) <> "" -> OS (params req) <> "win" ->
  stubAttributionGate b (params req) false = false ->
  serve b req' = serve b req.
Proof.
  intros Hparams Hpin Hos Hwin Hgate.
  assert (Hclosed : forall x, stubAttributionGate b (params req) x = false).
  { intros [|]; [|assumption]. unfold stubAttributionGate.
    apply andb_false_r. }
  destruct (String.eqb_spec (Product (params req)) "") as [Hprod | Hprod].
  - unfold ServeHTTP. now rewrite Hparams, Hprod.
  - rewrite (ServeHTTP_resolution b req Hprod (Hclosed _)).
    rewrite ServeHTTP_resolution
      by (rewrite Hparams; first [assumption | apply Hclosed]).
    rewrite Hparams, Hpin. unfold lookedUpProduct.
    destruct (withDefaults_fixed (params req)) as (_ & _ & _ & _ & -> & _).
    apply String.eqb_neq in Hos, Hwin. now rewrite Hos, Hwin.
Qed.

(** Pinning composes with itself: a Windows XP or Vista client on
    ["win"] gets the same answer for a product and for the product it
    is pinned to. *)
Theorem ServeHTTP_pinned_request (b : BouncerHandler LocationPath)
    (req req' : Request) :
  isWindowsXPUserAgent (UserAgent req) = true ->
  OS (params req) = "win" \/ OS (params req) = "" ->
  Product (params req) <> "" ->
  params req' = withProduct (params req) (sha1Product (Product (params req))) ->
  UserAgent req' = UserAgent req ->
  shouldPinHttps b req' = shouldPinHttps b req ->
  serve b req' = serve b req.
Proof.
  intros Hxp Hos Hprod Hparams Hua Hpin.
  assert (Hclosed : forall p, stubAttributionGate b p true = false)
    by (intros p; unfold stubAttributionGate; apply andb_false_r).
  assert (Hprod' : Product (params req') <> "")
    by (rewrite Hparams; now apply sha1Product_nonempty).
  rewrite (ServeHTTP_resolution b req Hprod) by (rewrite Hxp; apply Hclosed).
  rewrite (ServeHTTP_resolution b req' Hprod')
    by (rewrite Hua, Hxp; apply Hclosed).
  rewrite Hua, Hxp, Hpin, Hparams. unfold lookedUpProduct.
  assert (Hdef : withDefaults (withProduct (params req)
                                 (sha1Product (Product (params req))))
                 = withProduct (withDefaults (params req))
                     (sha1Product (Product (params req)))).
  { destruct (params req) as [os prod lang pr code sig].
    unfold withDefaults, withProduct, withOS, withLang. cbn.
    destruct (os =? ""); cbn; destruct (lang =? ""); reflexivity. }
  rewrite Hdef. cbn [withProduct PrintOnly Lang OS Product].
  destruct (withDefaults_fixed (params req)) as (-> & _ & _ & _ & Hdos & _).
  assert (Hw : OS (withDefaults (params req)) = "win")
    by (rewrite Hdos; destruct Hos as [-> | ->]; reflexivity).
  rewrite Hw. cbn [String.eqb Ascii.eqb Bool.eqb andb].
  now rewrite sha1Product_twice.
Qed.

(** With the pin header configured and sent as ["https"], every mirror
    URL [ServeHTTP] hands out is under the HTTPS base. *)
Theorem ServeHTTP_pin_header (b : BouncerHandler LocationPath)
    (req : Request) (mirror : string) :
  PinHttpsHeaderName b <> "" ->
  HeaderGet req (PinHttpsHeaderName b) = "https" ->
  mirrorURL (serve b req) = Some mirror ->
  HasPrefix mirror ("https://" ++ PinnedBaseURLHttps b) = true
  /\ PinnedBaseURLHttps b <> "".
Proof.
  intros Hname Hvalue.
  assert (Hpin : shouldPinHttps b req = true).
  { unfold shouldPinHttps. apply String.eqb_neq in Hname.
    now rewrite Hname, Hvalue. }
  destruct (ServeHTTP_cases b req) as [-> | [(stubURL & ->) | (_ & _ & ->)]];
    try discriminate.
  rewrite Hpin, URL_aliasTarget. unfold deliver.
  destruct (ProductLocationMap _ !! _) as [productData|]; [|discriminate].
  destruct (OsLocations _ !! _) as [locationPath|]; [|discriminate].
  unfold mirrorBaseURL. cbn [orb andb].
  rewrite andb_true_r, andb_false_r.
  destruct (String.eqb_spec (PinnedBaseURLHttps b) "") as [He | Hne];
    cbn [negb]; [discriminate|].
  destruct (_ =? ""); [discriminate|].
  intros H. assert (Hm : mirror
                         = ("https://" ++ PinnedBaseURLHttps b)
                           ++ ToString locationPath
                                (Lang (withDefaults (params req)))).
  { destruct (PrintOnly _); cbn in H; now injection H as <-. }
  rewrite Hm. split; [apply HasPrefix_append | assumption].
Qed.

(** With both mirror bases configured no request is answered 500; an
    error, when there is one, is "No mirror found." and is logged. *)
Theorem ServeHTTP_internal_error (b : BouncerHandler LocationPath)
    (req : Request) :
  (forall e, serve b req = InternalServerError e ->
             e = "No mirror found."
             /\ logged (serve b req) = ["No mirror found."]
             /\ (PinnedBaseURLHttp b = "" \/ PinnedBaseURLHttps b = ""))
  /\ (PinnedBaseURLHttp b <> "" -> PinnedBaseURLHttps b <> "" ->
      statusCode (serve b req) <> 500%Z).
Proof.
  assert (H : forall e, serve b req = InternalServerError e ->
                        e = "No mirror found."
                        /\ (PinnedBaseURLHttp b = ""
                            \/ PinnedBaseURLHttps b = "")).
  { destruct (ServeHTTP_cases b req)
      as [-> | [(stubURL & ->) | (_ & _ & ->)]]; try discriminate.
    rewrite URL_aliasTarget. unfold deliver.
    destruct (ProductLocationMap _ !! _) as [productData|];
      [|discriminate].
    destruct (OsLocations _ !! _) as [locationPath|]; [|discriminate].
    unfold mirrorBaseURL.
    destruct (String.eqb_spec (PinnedBaseURLHttps b) "") as [Hs | Hs],
      (String.eqb_spec (PinnedBaseURLHttp b) "") as [Hp | Hp],
      (_ || SSLOnly productData); cbn [negb andb];
      intros e He;
      repeat match type of He with
             | context [if ?c then _ else _] => destruct c
             end;
      try discriminate He; injection He as <-; auto. }
  split.
  - intros e He. destruct (H e He) as [-> Hbase]. rewrite He. auto.
  - intros Hp Hs Hstatus.
    destruct (serve b req) eqn:Hserve; try discriminate Hstatus.
    destruct (H _ eq_refl) as [_ [? | ?]]; contradiction.
Qed.

End HandlerMore.

Lemma URL_https_only_witness :
  ProductLocationMap (Locations mirrorHandler)
    !! aliasTarget id (Locations mirrorHandler) "firefox-39.0-ssl"
  = Some {| SSLOnly := true;
            OsLocations :=
              {[ "win" := "/pub/firefox/releases/39.0/win32/" ]} |}
  /\ false || true = true
  /\ HasPrefix
       (fst (URL String.append id mirrorHandler false "en-US" "win"
               "firefox-39.0-ssl")) "http://" = false
  /\ ((fst (URL String.append id mirrorHandler false "en-US" "win"
              "firefox-39.0-ssl") =? "") = false
      -> HasPrefix
           (fst (URL String.append id mirrorHandler false "en-US" "win"
                   "firefox-39.0-ssl")) "https://" = true).
Proof.
  split; [vm_compute; reflexivity|]. split; [reflexivity|].
  destruct (URL_https_only String.append id mirrorHandler false
              "en-US" "win" "firefox-39.0-ssl"
              {| SSLOnly := true;
                 OsLocations :=
                   {[ "win" := "/pub/firefox/releases/39.0/win32/" ]} |})
    as [Hhttp Hhttps]; [vm_compute; reflexivity | reflexivity |].
  split; [exact Hhttp|]. intros Hne. apply Hhttps.
  now apply String.eqb_neq.
Defined.

Lemma URL_alias_once_witness :
  Aliases (Locations mirrorHandler) !! id "firefox-latest"
  = Some "firefox-39.0"
  /\ URL String.append id mirrorHandler false "en-US" "osx" "firefox-latest"
     = URL String.append id (withoutAliases mirrorHandler) false "en-US"
         "osx" "firefox-39.0".
Proof.
  split; [vm_compute; reflexivity|].
  apply (URL_alias_once String.append id mirrorHandler false "en-US" "osx"
           "firefox-latest" "firefox-39.0").
  vm_compute; reflexivity.
Defined.

Lemma ServeHTTP_print_witness :
  exampleParamsFromValues (URLQuery (latestRequest true))
  = withPrintOnly (exampleParamsFromValues (URLQuery (latestRequest false)))
      true
  /\ UserAgent (latestRequest true) = UserAgent (latestRequest false)
  /\ shouldPinHttps mirrorHandler (latestRequest true)
     = shouldPinHttps mirrorHandler (latestRequest false)
  /\ ServeHTTP String.append id exampleParamsFromValues mirrorHandler
       (latestRequest true)
     = printed (ServeHTTP String.append id exampleParamsFromValues
                  mirrorHandler (latestRequest false)).
Proof.
  split; [vm_compute; reflexivity|]. do 2 (split; [reflexivity|]).
  apply (ServeHTTP_print String.append id exampleParamsFromValues
           mirrorHandler (latestRequest false) (latestRequest true));
    [vm_compute; reflexivity | reflexivity | reflexivity].
Defined.

(** The two answers of the example: the redirect and the text. *)
Example latestRequest_outcomes :
  ServeHTTP String.append id exampleParamsFromValues mirrorHandler
    (latestRequest false)
  = RedirectMirror (Some 90%Z)
      "http://download.cdn.mozilla.net/pub/firefox/releases/39.0/mac/en-US"
  /\ ServeHTTP String.append id exampleParamsFromValues mirrorHandler
       (latestRequest true)
     = PrintURL (Some 90%Z)
         "http://download.cdn.mozilla.net/pub/firefox/releases/39.0/mac/en-US".
Proof. split; vm_compute; reflexivity. Qed.

Lemma ServeHTTP_user_agent_off_win_witness :
  exampleParamsFromValues
    (URLQuery {| URLQuery := URLQuery (latestRequest false);
                 UserAgent := xpUserAgent;
                 HeaderGet := HeaderGet (latestRequest false) |})
  = exampleParamsFromValues (URLQuery (latestRequest false))
  /\ (OS (exampleParamsFromValues (URLQuery (latestRequest false))) =? "")
     = false
  /\ (OS (exampleParamsFromValues (URLQuery (latestRequest false))) =? "win")
     = false
  /\ isWindowsXPUserAgent xpUserAgent = true
  /\ ServeHTTP String.append id exampleParamsFromValues mirrorHandler
       {| URLQuery := URLQuery (latestRequest false);
          UserAgent := xpUserAgent;
          HeaderGet := HeaderGet (latestRequest false) |}
     = ServeHTTP String.append id exampleParamsFromValues mirrorHandler
         (latestRequest false).
Proof.
  split; [reflexivity|]. do 3 (split; [vm_compute; reflexivity|]).
  apply (ServeHTTP_user_agent_off_win String.append id
           exampleParamsFromValues mirrorHandler (latestRequest false));
    [reflexivity | reflexivity | | | reflexivity];
    apply String.eqb_neq; vm_compute; reflexivity.
Defined.

Lemma ServeHTTP_pinned_request_witness :
  isWindowsXPUserAgent (UserAgent (winRequest "firefox-latest" xpUserAgent false))
  = true
  /\ OS (exampleParamsFromValues
          (URLQuery (winRequest "firefox-latest" xpUserAgent false))) = "win"
  /\ exampleParamsFromValues
       (URLQuery (winRequest "firefox-sha1" xpUserAgent false))
     = withProduct
         (exampleParamsFromValues
            (URLQuery (winRequest "firefox-latest" xpUserAgent false)))
         (sha1Product "firefox-latest")
  /\ ServeHTTP String.append id exampleParamsFromValues mirrorHandler
       (winRequest "firefox-sha1" xpUserAgent false)
     = ServeHTTP String.append id exampleParamsFromValues mirrorHandler
         (winRequest "firefox-latest" xpUserAgent false)
  /\ ServeHTTP String.append id exampleParamsFromValues mirrorHandler
       (winRequest "firefox-latest" xpUserAgent false)
     = RedirectMirror (Some 90%Z)
         ("http://download.cdn.mozilla.net"
          ++ "/pub/firefox/releases/52.9.0esr/win32/en-US").
Proof.
  do 3 (split; [vm_compute; reflexivity|]). split; [|vm_compute; reflexivity].
  apply (ServeHTTP_pinned_request String.append id exampleParamsFromValues
           mirrorHandler (winRequest "firefox-latest" xpUserAgent false)
           (winRequest "firefox-sha1" xpUserAgent false));
    [vm_compute; reflexivity | left; vm_compute; reflexivity
     | apply String.eqb_neq; vm_compute; reflexivity
     | vm_compute; reflexivity | reflexivity | reflexivity].
Defined.

Lemma ServeHTTP_pin_header_witness :
  (PinHttpsHeaderName mirrorHandler =? "") = false
  /\ HeaderGet (winRequest "firefox-39.0" "curl/7.58.0" true)
       (PinHttpsHeaderName mirrorHandler) = "https"
  /\ mirrorURL (ServeHTTP String.append id exampleParamsFromValues
                  mirrorHandler (winRequest "firefox-39.0" "curl/7.58.0" true))
     = Some ("https://download-installer.cdn.mozilla.net"
             ++ "/pub/firefox/releases/39.0/win32/en-US")
  /\ HasPrefix ("https://download-installer.cdn.mozilla.net"
                ++ "/pub/firefox/releases/39.0/win32/en-US")
       ("https://" ++ PinnedBaseURLHttps mirrorHandler) = true
  /\ (PinnedBaseURLHttps mirrorHandler =? "") = false.
Proof.
  split; [reflexivity|]. split; [reflexivity|].
  split; [vm_compute; reflexivity|].
  destruct (ServeHTTP_pin_header String.append id exampleParamsFromValues
              mirrorHandler (winRequest "firefox-39.0" "curl/7.58.0" true)
              ("https://download-installer.cdn.mozilla.net"
               ++ "/pub/firefox/releases/39.0/win32/en-US"))
    as [Hprefix Hbase];
    [apply String.eqb_neq; reflexivity | reflexivity
     | vm_compute; reflexivity |].
  split; [exact Hprefix | now apply String.eqb_neq].
Defined.

(** ** [HealthHandler] *)

(** The health handler answers 200 to every request: [check] always
    reports healthy, so the 500 branch is never taken, and the body it
    writes always reports the database as false. *)
Theorem Health_always_ok (bouncerVersion : string)
    (jsonString : string -> string) (h : Health.HealthHandler)
    (req : Request) :
  Health.Status (Health.ServeHTTP bouncerVersion jsonString h req) = 200%Z
  /\ Health.ContentType (Health.ServeHTTP bouncerVersion jsonString h req)
     = "application/json"
  /\ Health.Body (Health.ServeHTTP bouncerVersion jsonString h req)
     = "{" ++ Health.quote ++ "db" ++ Health.quote ++ ":false,"
       ++ Health.quote ++ "healthy" ++ Health.quote ++ ":true,"
       ++ Health.quote ++ "version" ++ Health.quote ++ ":"
       ++ jsonString bouncerVersion ++ "}"
  /\ (forall maxAge,
         Health.CacheControl
           (Health.ServeHTTP bouncerVersion jsonString h req) = Some maxAge ->
         (0 < Health.CacheTime h)%Z
         /\ (maxAge * Second <= Health.CacheTime h < (maxAge + 1) * Second)%Z).
Proof.
  unfold Health.ServeHTTP, Health.JSON, Health.check.
  cbn [Health.Status Health.ContentType Health.Body Health.CacheControl
       Health.Healthy Health.DB Health.Version negb Health.jsonBool].
  do 3 (split; [reflexivity|]).
  intros maxAge. destruct (Z.gtb_spec (Health.CacheTime h) 0); [|discriminate].
  intros [= <-]. split; [assumption|].
  rewrite Z.quot_div_nonneg by (unfold Second; lia).
  pose proof (Z.mul_div_le (Health.CacheTime h) Second
                ltac:(unfold Second; lia)).
  pose proof (Z.mul_succ_div_gt (Health.CacheTime h) Second
                ltac:(unfold Second; lia)).
  lia.
Qed.

(** ** The query of the stub URL *)

Lemma allRunes_append (f : ascii -> bool) (s t : string) :
  allRunes f (s ++ t) = allRunes f s && allRunes f t.
Proof.
  induction s as [|c s IH]; cbn; [reflexivity|].
  now rewrite IH, andb_assoc.
Qed.

Lemma countRune_append (c : ascii) (s t : string) :
  countRune c (s ++ t) = countRune c s + countRune c t.
Proof. induction s as [|c' s IH]; cbn; [reflexivity|]. rewrite IH. lia. Qed.

Lemma countRune_excluded (f : ascii -> bool) (c : ascii) (s : string) :
  allRunes f s = true -> f c = false -> countRune c s = 0.
Proof.
  intros Hall Hc. induction s as [|c' s IH]; cbn in *; [reflexivity|].
  apply andb_prop in Hall as [Hc' Hs]. rewrite (IH Hs).
  destruct (Ascii.eqb_spec c' c) as [-> | _]; [congruence | reflexivity].
Qed.

(** [url.QueryEscape] writes nothing but letters, digits, the marks
    [-_.~], [%] and [+]. *)
Lemma QueryEscape_safe (s : string) : allRunes querySafe (QueryEscape s) = true.
Proof.
  induction s as [|c s IH]; cbn [QueryEscape]; [reflexivity|].
  rewrite allRunes_append, IH, andb_true_r.
  destruct c as [[] [] [] [] [] [] [] []]; vm_compute; reflexivity.
Qed.

Lemma countRune_QueryEscape (c : ascii) (s : string) :
  querySafe c = false -> countRune c (QueryEscape s) = 0.
Proof. apply countRune_excluded, QueryEscape_safe. Qed.

(** Whatever bytes the request parameters hold, the query of the stub
    URL is five [key=value] pairs and nothing else: the values bring
    no [&], [=], [?], [#] or space of their own. *)
Theorem stubAttributionURL_query_shape {LocationPath : Type}
    (b : BouncerHandler LocationPath) (reqParams : BouncerParams) :
  exists query,
    stubAttributionURL b reqParams = StubRootURL b ++ "?" ++ query
    /\ countRune "&" query = 4
    /\ countRune "=" query = 5
    /\ countRune "?" query = 0
    /\ countRune "#" query = 0
    /\ countRune " " query = 0.
Proof.
  rewrite stubAttributionURL_spec. eexists. split; [reflexivity|].
  rewrite !countRune_append.
  rewrite !countRune_QueryEscape by reflexivity.
  repeat split; reflexivity.
Qed.

(** ** More on [isWindowsXPUserAgent] and on the defaults *)

Lemma Contains_intro (pre substr post : string) :
  Contains (pre ++ substr ++ post) substr = true.
Proof.
  induction pre as [|c pre IH]; cbn [String.append].
  - destruct (substr ++ post) eqn:Heq; cbn [Contains];
      rewrite <- Heq, HasPrefix_append; reflexivity.
  - cbn [Contains]. rewrite IH. apply orb_true_r.
Qed.

(** A user agent that does not contain ["Windows "], with this
    capital and the space, is never taken for a Windows XP or Vista
    client. *)
Theorem isWindowsXPUserAgent_needs_Windows (userAgent : string) :
  Contains userAgent "Windows " = false ->
  isWindowsXPUserAgent userAgent = false.
Proof.
  intros Hno. destruct (isWindowsXPUserAgent userAgent) eqn:Hxp;
    [|reflexivity].
  apply isWindowsXPUserAgent_iff in Hxp as (pre & m & post & -> & Hm).
  assert (Hw : exists rest, m = "Windows " ++ rest).
  { destruct Hm as [-> | (c & _ & [-> | [-> | ->]])]; eexists; reflexivity. }
  destruct Hw as (rest & ->).
  rewrite append_assoc, Contains_intro in Hno. discriminate Hno.
Qed.

Lemma isWindowsXPUserAgent_needs_Windows_witness :
  Contains "Mozilla/5.0 (compatible; MSIE 6.0; windows nt 5.1)" "Windows "
  = false
  /\ isWindowsXPUserAgent "Mozilla/5.0 (compatible; MSIE 6.0; windows nt 5.1)"
     = false.
Proof.
  split; [reflexivity|].
  apply (isWindowsXPUserAgent_needs_Windows
           "Mozilla/5.0 (compatible; MSIE 6.0; windows nt 5.1)").
  reflexivity.
Defined.

(** Leaving out [os] or [lang] is the same as asking for ["win"] or
    ["en-US"]: a request gets the answer of the request with the
    defaults written out. *)
Theorem ServeHTTP_defaults {LocationPath : Type}
    (ToString : LocationPath -> string -> string)
    (NewAliasName : string -> string)
    (BouncerParamsFromValues : Values -> BouncerParams)
    (b : BouncerHandler LocationPath) (req req' : Request) :
  BouncerParamsFromValues (URLQuery req')
  = withDefaults (BouncerParamsFromValues (URLQuery req)) ->
  UserAgent req' = UserAgent req ->
  shouldPinHttps b req' = shouldPinHttps b req ->
  ServeHTTP ToString NewAliasName BouncerParamsFromValues b req'
  = ServeHTTP ToString NewAliasName BouncerParamsFromValues b req.
Proof.
  intros Hparams Hua Hpin. unfold ServeHTTP.
  rewrite Hparams, Hua, Hpin.
  fold (withDefaults (BouncerParamsFromValues (URLQuery req))).
  fold (withDefaults (withDefaults (BouncerParamsFromValues (URLQuery req)))).
  assert (Hidem : forall p, withDefaults (withDefaults p) = withDefaults p).
  { intros [os prod lang pr code sig].
    unfold withDefaults, withOS, withLang, DefaultOS, DefaultLang. cbn.
    destruct (os =? "") eqn:Hos; cbn;
      destruct (lang =? "") eqn:Hlang; cbn;
      rewrite ?Hos, ?Hlang; cbn; rewrite ?Hos, ?Hlang; reflexivity. }
  rewrite Hidem.
  now destruct (withDefaults_fixed (BouncerParamsFromValues (URLQuery req)))
    as (-> & _).
Qed.

Lemma ServeHTTP_defaults_witness :
  exampleParamsFromValues
    (URLQuery {| URLQuery := {[ "product" := ["firefox-latest"];
                                "os" := ["win"]; "lang" := ["en-US"] ]};
                 UserAgent := xpUserAgent;
                 HeaderGet := fun _ => "" |})
  = withDefaults
      (exampleParamsFromValues
         (URLQuery {| URLQuery := {[ "product" := ["firefox-latest"] ]};
                      UserAgent := xpUserAgent;
                      HeaderGet := fun _ => "" |}))
  /\ ServeHTTP String.append id exampleParamsFromValues mirrorHandler
       {| URLQuery := {[ "product" := ["firefox-latest"];
                         "os" := ["win"]; "lang" := ["en-US"] ]};
          UserAgent := xpUserAgent;
          HeaderGet := fun _ => "" |}
     = ServeHTTP String.append id exampleParamsFromValues mirrorHandler
         {| URLQuery := {[ "product" := ["firefox-latest"] ]};
            UserAgent := xpUserAgent;
            HeaderGet := fun _ => "" |}.
Proof.
  split; [vm_compute; reflexivity|].
  apply (ServeHTTP_defaults String.append id exampleParamsFromValues
           mirrorHandler
           {| URLQuery := {[ "product" := ["firefox-latest"] ]};
              UserAgent := xpUserAgent;
              HeaderGet := fun _ => "" |});
    [vm_compute; reflexivity | reflexivity | reflexivity].
Defined.
